(** * Mesh-TF model facade: [t5/models/mtf_model.py]

    A shallow embedding of the [MtfModel] wrapper class.  The class derives a
    few values from its constructor arguments, builds one estimator through
    the external modelling library, and forwards [train], [eval] and
    [predict] to external routines.

    Python's effects are written out:
    - every external routine is a field of the environment [Ext]; it may
      return, raise, or never return, and every call is recorded in a log;
    - the process-wide gin configuration is a component of the world;
    - the facade object is a component of the state the three verbs run in,
      so that "a verb leaves the object alone" is a statement, not a typing
      accident. *)

From Stdlib Require Import ZArith QArith List.
From stdpp Require Import base gmap strings list.

Local Open Scope string_scope.
Local Open Scope list_scope.
Local Open Scope Z_scope.

(** ** Outcomes of Python calls *)

(** Exceptions.  [RuntimeError] is what gin raises on a locked
    configuration, [NotRegistered] is the registry's lookup failure and
    carries the name looked up, [Raised] stands for whatever else an
    external routine raises. *)
Inductive exn : Type :=
| RuntimeError (msg : string)
| NotRegistered (name : string)
| Raised (what : string).

(** A call returns a value, raises, or never returns (continuous
    evaluation waits for checkpoints for ever). *)
Inductive outcome (A : Type) : Type :=
| Returns (a : A)
| Raises (e : exn)
| Blocks.
Arguments Returns {A} a.
Arguments Raises {A} e.
Arguments Blocks {A}.

(** State and exception monad: the state after a raise is the state at the
    raise, as in Python. *)
Definition M (S A : Type) : Type := S -> outcome A * S.

Definition ret {S A} (a : A) : M S A := fun s => (Returns a, s).

Definition raise {S A} (e : exn) : M S A := fun s => (Raises e, s).

Definition bind {S A B} (m : M S A) (k : A -> M S B) : M S B :=
  fun s =>
    match m s with
    | (Returns a, s') => k a s'
    | (Raises e, s') => (Raises e, s')
    | (Blocks, s') => (Blocks, s')
    end.

Declare Scope py_scope.
Delimit Scope py_scope with py.
Notation "x <- m ;; k" := (bind m (fun x => k))
  (at level 100, m at next level, right associativity) : py_scope.
Notation "m ;;; k" := (bind m (fun _ => k))
  (at level 100, right associativity) : py_scope.
Local Open Scope py_scope.

(** ** Opaque collaborator objects *)

(** The objects the file only passes around.  [float] is Python's float:
    the temperature is carried, never computed with. *)
Class Handles : Type := {
  Vocabulary : Type;
  MeshShape : Type;
  Shape : Type;
  LayoutRules : Type;
  Cluster : Type;
  Estimator : Type;
  Schedule : Type;
  OptimizerClass : Type;
  PredictFn : Type;
  Dataset : Type;
  float : Type
}.

(** ** The gin configuration (process-wide) *)

Inductive GinValue `{Handles} : Type :=
| GInt (z : Z)
| GFloat (f : float).

(** The three pieces of gin's global state the file touches: the lock set by
    [gin.finalize], the stack of active configuration scopes (top first),
    and the parameter bindings, keyed by binding key. *)
Record GinConfig `{Handles} : Type := {
  config_is_locked : bool;
  ACTIVE_SCOPES : list (list string);
  CONFIG : gmap string GinValue
}.

Section Facade.
Context `{Handles}.

Definition set_locked (b : bool) (g : GinConfig) : GinConfig :=
  {| config_is_locked := b;
     ACTIVE_SCOPES := ACTIVE_SCOPES g;
     CONFIG := CONFIG g |}.

Definition set_scopes (l : list (list string)) (g : GinConfig) : GinConfig :=
  {| config_is_locked := config_is_locked g;
     ACTIVE_SCOPES := l;
     CONFIG := CONFIG g |}.

Definition set_binding (k : string) (v : GinValue) (g : GinConfig) : GinConfig :=
  {| config_is_locked := config_is_locked g;
     ACTIVE_SCOPES := ACTIVE_SCOPES g;
     CONFIG := <[k := v]> (CONFIG g) |}.

(** [gin.current_scope()]: the innermost active scope. *)
Definition current_scope (g : GinConfig) : list string :=
  match ACTIVE_SCOPES g with
  | sc :: _ => sc
  | [] => []
  end.

(** ** Arguments of the constructor *)

(** [vocabulary]: one vocabulary or an (inputs, targets) pair. *)
Inductive VocabArg : Type :=
| VSingle (v : Vocabulary)
| VPair (vi vt : Vocabulary).

(** [batch_size]: an integer or a (method, value) pair. *)
Inductive BatchSizeArg : Type :=
| BSInt (n : Z)
| BSPair (method : string) (value : Z).

(** [sequence_length]: [None], an integer, or a dict from feature key to
    integer. *)
Inductive SeqLenArg : Type :=
| SLNone
| SLInt (n : Z)
| SLDict (d : gmap string Z).

(** [checkpoint_step]: [None], an int, or a list of ints. *)
Inductive CheckpointStep : Type :=
| CSNone
| CSInt (step : Z)
| CSList (steps : list Z).

Record InitArgs : Type := {
  model_dir : string;
  tpu : option string;
  tpu_job_name : option string;
  tpu_zone : option string;
  gcp_project : option string;
  tpu_topology : string;
  model_parallelism : Z;
  batch_size : BatchSizeArg;
  sequence_length : SeqLenArg;
  vocabulary : option VocabArg;
  model_type : string;
  layout_rules : string;
  autostack : bool;
  learning_rate_schedule : option Schedule;
  keep_checkpoint_max : option Z;
  save_checkpoints_steps : Z;
  optimizer : option OptimizerClass;
  predict_fn : option PredictFn;
  variable_filter : option string;
  ensemble_inputs : option Z;
  iterations_per_loop : Z;
  init_checkpoint : option string
}.

(** The signature's defaults; [model_dir] and [tpu] are required. *)
Definition default_args (dir : string) (tpu_address : option string) : InitArgs :=
  {| model_dir := dir;
     tpu := tpu_address;
     tpu_job_name := None;
     tpu_zone := None;
     gcp_project := None;
     tpu_topology := "2x2";
     model_parallelism := 8;
     batch_size := BSPair "tokens_per_batch" 1024;
     sequence_length := SLNone;
     vocabulary := None;
     model_type := "bitransformer";
     layout_rules :=
       "ensemble:ensemble,batch:batch,d_ff:model,heads:model,vocab:model,experts:batch";
     autostack := true;
     learning_rate_schedule := None;
     keep_checkpoint_max := None;
     save_checkpoints_steps := 5000;
     optimizer := None;
     predict_fn := None;
     variable_filter := None;
     ensemble_inputs := None;
     iterations_per_loop := 100;
     init_checkpoint := None |}.

(** The keyword arguments of [utils.get_estimator], in call order. *)
Record EstimatorArgs : Type := {
  kw_model_type : string;
  kw_input_vocab_size : Z;
  kw_output_vocab_size : Z;
  kw_layout_rules : LayoutRules;
  kw_mesh_shape : Shape;
  kw_model_dir : string;
  kw_batch_size : Z;
  kw_sequence_length : gmap string Z;
  kw_autostack : bool;
  kw_learning_rate_schedule : Schedule;
  kw_keep_checkpoint_max : option Z;
  kw_save_checkpoints_steps : Z;
  kw_optimizer : OptimizerClass;
  kw_predict_fn : option PredictFn;
  kw_variable_filter : option string;
  kw_ensemble_inputs : option Z;
  kw_use_tpu : option string;
  kw_tpu_job_name : option string;
  kw_iterations_per_loop : Z;
  kw_cluster : Cluster;
  kw_init_checkpoint : option string
}.

(** The attributes [__init__] stores on the object. *)
Record MtfModel : Type := {
  _batch_size : Z;
  _sequence_length : gmap string Z;
  _vocabulary : VocabArg;
  _model_dir : string;
  _init_checkpoint : option string;
  _model_type : string;
  _ensemble_inputs : option Z;
  _estimator : Estimator
}.

(** ** External calls and the world *)

(** One constructor per routine the file calls, with the arguments of the
    call.  The log of a run is the list of calls it made, oldest first. *)
Inductive Event : Type :=
| Ev_tpu_mesh_shape (topology : string) (parallelism : Z)
| Ev_SentencePieceVocabulary
| Ev_compute_batch_size (sl : gmap string Z) (ms : MeshShape)
    (rules : string) (spec : string * Z)
| Ev_TPUClusterResolver (address : string) (zone project : option string)
| Ev_vocab_size (v : Vocabulary)
| Ev_convert_to_layout_rules (rules : string)
| Ev_convert_to_shape (ms : MeshShape)
| Ev_get_estimator (kw : EstimatorArgs)
| Ev_train_model (est : Estimator) (vocab : VocabArg) (sl : gmap string Z)
    (bs : Z) (steps : Z) (ens : option Z)
| Ev_eval_model (est : Estimator) (vocab : VocabArg) (sl : gmap string Z)
    (bs : Z) (split dir : string) (summary_dir : option string)
    (step : CheckpointStep)
| Ev_infer_model (est : Estimator) (vocab : VocabArg) (sl : gmap string Z)
    (bs : Z) (mtype dir : string) (step : CheckpointStep)
    (input_file output_file : string)
| Ev_get_dataset (name split : string) (sl : gmap string Z) (vocab : VocabArg).

(** The calls only the constructor makes. *)
Definition construction_event (ev : Event) : bool :=
  match ev with
  | Ev_tpu_mesh_shape _ _ | Ev_SentencePieceVocabulary
  | Ev_compute_batch_size _ _ _ _ | Ev_TPUClusterResolver _ _ _
  | Ev_vocab_size _
  | Ev_convert_to_layout_rules _ | Ev_convert_to_shape _
  | Ev_get_estimator _ => true
  | _ => false
  end.

Definition is_compute_batch_size (ev : Event) : bool :=
  match ev with
  | Ev_compute_batch_size _ _ _ _ => true
  | _ => false
  end.

Definition is_get_dataset (ev : Event) : bool :=
  match ev with
  | Ev_get_dataset _ _ _ _ => true
  | _ => false
  end.

(** The external collaborators.  Each routine sees the gin configuration
    that is current when it is called (the library's routines are
    gin-configurable) and returns, raises or blocks.  [vocab_size] is the
    read of a vocabulary's [vocab_size] property, which may raise as any
    call may; [vocabulary_bool] is Python's [bool] of a vocabulary object,
    decided by its class.  [run_training] and
    [run_evaluation] are the parts of [utils.train_model] and
    [utils.eval_model] after the dataset has been obtained; [registry] holds
    the names registered in the task and mixture registries. *)
Record Ext : Type := {
  tpu_mesh_shape : GinConfig -> string -> Z -> outcome MeshShape;
  SentencePieceVocabulary : GinConfig -> outcome Vocabulary;
  vocab_size : GinConfig -> Vocabulary -> outcome Z;
  vocabulary_bool : Vocabulary -> bool;
  compute_batch_size :
    GinConfig -> gmap string Z -> MeshShape -> string -> string * Z -> outcome Z;
  learning_rate_schedule_noam : Schedule;
  AdafactorOptimizer : OptimizerClass;
  TPUClusterResolver :
    GinConfig -> string -> option string -> option string -> outcome Cluster;
  convert_to_layout_rules : GinConfig -> string -> outcome LayoutRules;
  convert_to_shape : GinConfig -> MeshShape -> outcome Shape;
  get_estimator : GinConfig -> EstimatorArgs -> outcome Estimator;
  infer_model :
    GinConfig -> Estimator -> VocabArg -> gmap string Z -> Z -> string ->
    string -> CheckpointStep -> string -> string -> outcome unit;
  registry : gset string;
  get_dataset :
    GinConfig -> string -> string -> gmap string Z -> VocabArg -> outcome Dataset;
  run_training :
    GinConfig -> Estimator -> Dataset -> Z -> Z -> option Z -> outcome unit;
  run_evaluation :
    GinConfig -> Estimator -> Dataset -> Z -> string -> string ->
    option string -> CheckpointStep -> outcome unit
}.

(** What lives outside the facade object: gin's globals and the log. *)
Record World : Type := {
  gin : GinConfig;
  log : list Event
}.

(** The state a method runs in: the object it is called on, and the world. *)
Record ObjState : Type := {
  self : MtfModel;
  world : World
}.

Definition upd_gin (f : GinConfig -> GinConfig) (w : World) : World :=
  {| gin := f (gin w); log := log w |}.

Definition upd_world (f : World -> World) (s : ObjState) : ObjState :=
  {| self := self s; world := f (world s) |}.

(** An external call: the routine runs under the current configuration and
    the call is appended to the log, whatever its outcome. *)
Definition call {A} (ev : Event) (f : GinConfig -> outcome A) : M World A :=
  fun w => (f (gin w), {| gin := gin w; log := log w ++ [ev] |}).

(** A world computation run from inside a method. *)
Definition liftW {A} (m : M World A) : M ObjState A :=
  fun s => let (r, w) := m (world s) in (r, {| self := self s; world := w |}).

(** Reading [self]. *)
Definition get_self : M ObjState MtfModel := fun s => (Returns (self s), s).

(** ** gin *)

(** gin is an external library.  The three operations [predict] uses are
    written out after gin's [config] module: [bind_parameter] is a write to
    the process-wide configuration, and the two context managers scope the
    lock and the active scope respectively; neither of them saves or
    restores a binding. *)

(** [gin.bind_parameter(binding_key, value)]: refuses on a locked
    configuration, otherwise writes the binding into the global
    configuration. *)
Definition bind_parameter (binding_key : string) (value : GinValue) : M World unit :=
  fun w =>
    if config_is_locked (gin w)
    then (Raises (RuntimeError "Attempted to modify locked Gin config."), w)
    else (Returns tt, upd_gin (set_binding binding_key value) w).

(** [with gin.unlock_config(): body].  The context manager is a generator
    that notes the lock, clears it, yields, and sets the lock back to what it
    noted; the last step is not in a [finally], so it is skipped when the
    body raises. *)
Definition unlock_config {A} (body : M ObjState A) : M ObjState A :=
  fun s =>
    let config_was_locked := config_is_locked (gin (world s)) in
    match body (upd_world (upd_gin (set_locked false)) s) with
    | (Returns a, s') =>
        (Returns a, upd_world (upd_gin (set_locked config_was_locked)) s')
    | (r, s') => (r, s')
    end.

(** [with gin.config_scope(name): body].  The new scope extends the current
    one and is pushed on the stack of active scopes; it is popped in a
    [finally], so also when the body raises. *)
Definition config_scope {A} (name : string) (body : M ObjState A) : M ObjState A :=
  fun s =>
    let g := gin (world s) in
    let new_scope := (current_scope g ++ [name])%list in
    match body (upd_world (upd_gin (set_scopes (new_scope :: ACTIVE_SCOPES g))) s) with
    | (Blocks, s') => (Blocks, s')
    | (r, s') =>
        (r, upd_world (upd_gin (fun g' => set_scopes (tail (ACTIVE_SCOPES g')) g')) s')
    end.

(** ** Python truthiness of the arguments tested with [or] and [if] *)

(** [bool(tpu)]: [None] and the empty string are falsy. *)
Definition truthy_str (o : option string) : bool :=
  match o with
  | Some s => negb (bool_decide (s = ""))
  | None => false
  end.

(** [bool(sequence_length)]: [None], [0] and the empty dict are falsy. *)
Definition truthy_seq_len (a : SeqLenArg) : bool :=
  match a with
  | SLNone => false
  | SLInt n => negb (n =? 0)
  | SLDict d => negb (bool_decide (d = ∅))
  end.

(** A value that is an int or a dict: what [sequence_length] is after the
    [or]. *)
Inductive IntOrDict : Type :=
| IsInt (n : Z)
| IsDict (d : gmap string Z).

(** [sequence_length or {"inputs": 512, "targets": 512}] *)
Definition or_default_sequence_length (a : SeqLenArg) : IntOrDict :=
  if truthy_seq_len a
  then match a with
       | SLInt n => IsInt n
       | SLDict d => IsDict d
       | SLNone => IsDict {[ "inputs" := 512; "targets" := 512 ]}
       end
  else IsDict {[ "inputs" := 512; "targets" := 512 ]}.

(** [if isinstance(sequence_length, int): sequence_length = {...}] *)
Definition expand_sequence_length (v : IntOrDict) : gmap string Z :=
  match v with
  | IsInt n => {[ "inputs" := n; "targets" := n ]}
  | IsDict d => d
  end.

(** Modelled from the spec: [utils.inputs_vocabulary] of the external
    modelling library is missing.  The vocabulary is "single or input/output
    pair" and exposes a size "for an input role and a target role": the
    input role of a pair is its first component, a single vocabulary plays
    both roles. *)
Definition inputs_vocabulary (v : VocabArg) : Vocabulary :=
  match v with
  | VSingle x => x
  | VPair vi _ => vi
  end.

(** Modelled from the spec: [utils.targets_vocabulary], as above, the target
    role of a pair being its second component. *)
Definition targets_vocabulary (v : VocabArg) : Vocabulary :=
  match v with
  | VSingle x => x
  | VPair _ vt => vt
  end.

Section WithExt.
Variable E : Ext.

(** [bool(vocabulary)]: [None] is falsy, an (inputs, targets) pair is a
    non-empty tuple and so truthy, a single vocabulary object is what its
    class makes it. *)
Definition truthy_vocabulary (o : option VocabArg) : bool :=
  match o with
  | None => false
  | Some (VPair _ _) => true
  | Some (VSingle v) => vocabulary_bool E v
  end.

(** ** [MtfModel.__init__] *)

Definition __init__ (a : InitArgs) : M World MtfModel :=
  mesh_shape <-
    call (Ev_tpu_mesh_shape (tpu_topology a) (model_parallelism a))
         (fun g => tpu_mesh_shape E g (tpu_topology a) (model_parallelism a)) ;;
  (* vocabulary = vocabulary or SentencePieceVocabulary() *)
  vocabulary <-
    (if truthy_vocabulary (vocabulary a)
     then match vocabulary a with
          | Some v => ret v
          | None =>
              v <- call Ev_SentencePieceVocabulary (SentencePieceVocabulary E) ;;
              ret (VSingle v)
          end
     else
       v <- call Ev_SentencePieceVocabulary (SentencePieceVocabulary E) ;;
       ret (VSingle v)) ;;
  let sequence_length := or_default_sequence_length (sequence_length a) in
  let sequence_length := expand_sequence_length sequence_length in
  (* if not isinstance(batch_size, int): ... else: ... *)
  self_batch_size <-
    match batch_size a with
    | BSPair method value =>
        call (Ev_compute_batch_size sequence_length mesh_shape (layout_rules a)
                (method, value))
             (fun g => compute_batch_size E g sequence_length mesh_shape
                         (layout_rules a) (method, value))
    | BSInt n => ret n
    end ;;
  let learning_rate_schedule :=
    match learning_rate_schedule a with
    | Some f => f
    | None => learning_rate_schedule_noam E
    end in
  let optimizer :=
    match optimizer a with
    | Some c => c
    | None => AdafactorOptimizer E
    end in
  (* tpu if (tpu) else "" *)
  let address :=
    if truthy_str (tpu a)
    then match tpu a with Some s => s | None => "" end
    else "" in
  cluster <-
    call (Ev_TPUClusterResolver address (tpu_zone a) (gcp_project a))
         (fun g => TPUClusterResolver E g address (tpu_zone a) (gcp_project a)) ;;
  (* utils.inputs_vocabulary(vocabulary).vocab_size, then the targets' *)
  input_vocab_size <-
    call (Ev_vocab_size (inputs_vocabulary vocabulary))
         (fun g => vocab_size E g (inputs_vocabulary vocabulary)) ;;
  output_vocab_size <-
    call (Ev_vocab_size (targets_vocabulary vocabulary))
         (fun g => vocab_size E g (targets_vocabulary vocabulary)) ;;
  rules <-
    call (Ev_convert_to_layout_rules (layout_rules a))
         (fun g => convert_to_layout_rules E g (layout_rules a)) ;;
  shape <-
    call (Ev_convert_to_shape mesh_shape)
         (fun g => convert_to_shape E g mesh_shape) ;;
  let kw :=
    {| kw_model_type := model_type a;
       kw_input_vocab_size := input_vocab_size;
       kw_output_vocab_size := output_vocab_size;
       kw_layout_rules := rules;
       kw_mesh_shape := shape;
       kw_model_dir := model_dir a;
       kw_batch_size := self_batch_size;
       kw_sequence_length := sequence_length;
       kw_autostack := autostack a;
       kw_learning_rate_schedule := learning_rate_schedule;
       kw_keep_checkpoint_max := keep_checkpoint_max a;
       kw_save_checkpoints_steps := save_checkpoints_steps a;
       kw_optimizer := optimizer;
       kw_predict_fn := predict_fn a;
       kw_variable_filter := variable_filter a;
       kw_ensemble_inputs := ensemble_inputs a;
       kw_use_tpu := tpu a;
       kw_tpu_job_name := tpu_job_name a;
       kw_iterations_per_loop := iterations_per_loop a;
       kw_cluster := cluster;
       kw_init_checkpoint := init_checkpoint a |} in
  estimator <- call (Ev_get_estimator kw) (fun g => get_estimator E g kw) ;;
  ret {| _batch_size := self_batch_size;
         _sequence_length := sequence_length;
         _vocabulary := vocabulary;
         _model_dir := model_dir a;
         _init_checkpoint := init_checkpoint a;
         _model_type := model_type a;
         _ensemble_inputs := ensemble_inputs a;
         _estimator := estimator |}.

(** ** The dataset functions and the routines that call them *)

(** Modelled from the spec: [mesh_train_dataset_fn] of
    [t5.models.mesh_transformer] is missing.  It is the dataset-function
    factory: the name is looked up in the global task/mixture registry;
    "name lookups must resolve to a dataset-producing definition or the call
    fails", with an error that identifies the name; for a registered name
    the dataset is built. *)
Definition mesh_train_dataset_fn (mixture_or_task_name : string)
    (sequence_length : gmap string Z) (vocabulary : VocabArg) (split : string)
    : M World Dataset :=
  if decide (mixture_or_task_name ∈ registry E)
  then call (Ev_get_dataset mixture_or_task_name split sequence_length vocabulary)
            (fun g => get_dataset E g mixture_or_task_name split sequence_length
                        vocabulary)
  else raise (NotRegistered mixture_or_task_name).

(** Modelled from the spec: [mesh_eval_dataset_fn], the evaluation twin of
    the factory above, missing as well. *)
Definition mesh_eval_dataset_fn (mixture_or_task_name : string)
    (sequence_length : gmap string Z) (vocabulary : VocabArg) (split : string)
    : M World Dataset :=
  if decide (mixture_or_task_name ∈ registry E)
  then call (Ev_get_dataset mixture_or_task_name split sequence_length vocabulary)
            (fun g => get_dataset E g mixture_or_task_name split sequence_length
                        vocabulary)
  else raise (NotRegistered mixture_or_task_name).

(** Modelled from the spec: [utils.train_model] of the external modelling
    library is missing.  It is the "external training routine" that receives
    "the stored vocabulary, sequence length, batch size, ensemble width, and
    the dataset function": it obtains its examples from the dataset function
    and trains on them. *)
Definition train_model (estimator : Estimator) (vocabulary : VocabArg)
    (sequence_length : gmap string Z) (batch_size : Z)
    (train_dataset_fn : gmap string Z -> VocabArg -> string -> M World Dataset)
    (train_steps : Z) (ensemble_inputs : option Z) : M World unit :=
  call (Ev_train_model estimator vocabulary sequence_length batch_size
          train_steps ensemble_inputs) (fun _ => Returns tt) ;;;
  dataset <- train_dataset_fn sequence_length vocabulary "train" ;;
  fun w => (run_training E (gin w) estimator dataset batch_size train_steps
              ensemble_inputs, w).

(** Modelled from the spec: [utils.eval_model], the "external evaluation
    routine", missing as well; it obtains the split's examples from the
    dataset function and evaluates on them. *)
Definition eval_model (estimator : Estimator) (vocabulary : VocabArg)
    (sequence_length : gmap string Z) (batch_size : Z) (dataset_split : string)
    (model_dir : string)
    (eval_dataset_fn : gmap string Z -> VocabArg -> string -> M World Dataset)
    (eval_summary_dir : option string) (eval_checkpoint_step : CheckpointStep)
    : M World unit :=
  call (Ev_eval_model estimator vocabulary sequence_length batch_size
          dataset_split model_dir eval_summary_dir eval_checkpoint_step)
       (fun _ => Returns tt) ;;;
  dataset <- eval_dataset_fn sequence_length vocabulary dataset_split ;;
  fun w => (run_evaluation E (gin w) estimator dataset batch_size dataset_split
              model_dir eval_summary_dir eval_checkpoint_step, w).

(** ** [MtfModel.train], [MtfModel.eval], [MtfModel.predict] *)

Definition train (mixture_or_task_name : string) (steps : Z) : M ObjState unit :=
  (* functools.partial(mesh_train_dataset_fn, mixture_or_task_name=...) *)
  let dataset_fn := mesh_train_dataset_fn mixture_or_task_name in
  me <- get_self ;;
  liftW (train_model (_estimator me) (_vocabulary me) (_sequence_length me)
           (_batch_size me) dataset_fn steps (_ensemble_inputs me)).

Definition eval (mixture_or_task_name : string) (checkpoint_step : CheckpointStep)
    (summary_dir : option string) (split : string) : M ObjState unit :=
  let dataset_fn := mesh_eval_dataset_fn mixture_or_task_name in
  me <- get_self ;;
  liftW (eval_model (_estimator me) (_vocabulary me) (_sequence_length me)
           (_batch_size me) split (_model_dir me) dataset_fn summary_dir
           checkpoint_step).

Definition predict (checkpoint_step : CheckpointStep)
    (input_file output_file : string) (beam_size : Z) (temperature : float)
    : M ObjState unit :=
  unlock_config (config_scope "decode" (
    liftW (bind_parameter "Bitransformer.decode.beam_size" (GInt beam_size)) ;;;
    liftW (bind_parameter "Bitransformer.decode.temperature"
             (GFloat temperature)) ;;;
    me <- get_self ;;
    liftW (call (Ev_infer_model (_estimator me) (_vocabulary me)
                   (_sequence_length me) (_batch_size me) (_model_type me)
                   (_model_dir me) checkpoint_step input_file output_file)
                (fun g => infer_model E g (_estimator me) (_vocabulary me)
                            (_sequence_length me) (_batch_size me)
                            (_model_type me) (_model_dir me) checkpoint_step
                            input_file output_file)))).

(** ** A caller's session *)

(** One call of a verb, with its arguments. *)
Inductive Verb : Type :=
| Train (mixture_or_task_name : string) (steps : Z)
| Eval (mixture_or_task_name : string) (checkpoint_step : CheckpointStep)
    (summary_dir : option string) (split : string)
| Predict (checkpoint_step : CheckpointStep) (input_file output_file : string)
    (beam_size : Z) (temperature : float).

Definition run_verb (v : Verb) : M ObjState unit :=
  match v with
  | Train name steps => train name steps
  | Eval name step summary_dir split => eval name step summary_dir split
  | Predict step input_file output_file beam_size temperature =>
      predict step input_file output_file beam_size temperature
  end.

(** Verbs called one after the other on the same object.  The caller may
    catch what a verb raises and go on; a verb that blocks ends the
    session. *)
Fixpoint session (vs : list Verb) (s : ObjState) : ObjState :=
  match vs with
  | [] => s
  | v :: vs' =>
      match run_verb v s with
      | (Blocks, s') => s'
      | (_, s') => session vs' s'
      end
  end.

(** The verbs of a session that are actually called: all of them, up to and
    including the first one that blocks. *)
Fixpoint called (vs : list Verb) (s : ObjState) : list Verb :=
  match vs with
  | [] => []
  | v :: vs' =>
      v :: match run_verb v s with
           | (Blocks, _) => []
           | (_, s') => called vs' s'
           end
  end.

(** ** Vocabulary of the statements *)

(** The keyword bundle [__init__] hands to [utils.get_estimator], as a
    function of the values computed before the call. *)
Definition estimator_kwargs (a : InitArgs) (input_vocab_size output_vocab_size : Z)
    (sl : gmap string Z) (bs : Z) (rules : LayoutRules) (shape : Shape)
    (cluster : Cluster) : EstimatorArgs :=
  {| kw_model_type := model_type a;
     kw_input_vocab_size := input_vocab_size;
     kw_output_vocab_size := output_vocab_size;
     kw_layout_rules := rules;
     kw_mesh_shape := shape;
     kw_model_dir := model_dir a;
     kw_batch_size := bs;
     kw_sequence_length := sl;
     kw_autostack := autostack a;
     kw_learning_rate_schedule :=
       match learning_rate_schedule a with
       | Some f => f
       | None => learning_rate_schedule_noam E
       end;
     kw_keep_checkpoint_max := keep_checkpoint_max a;
     kw_save_checkpoints_steps := save_checkpoints_steps a;
     kw_optimizer :=
       match optimizer a with
       | Some c => c
       | None => AdafactorOptimizer E
       end;
     kw_predict_fn := predict_fn a;
     kw_variable_filter := variable_filter a;
     kw_ensemble_inputs := ensemble_inputs a;
     kw_use_tpu := tpu a;
     kw_tpu_job_name := tpu_job_name a;
     kw_iterations_per_loop := iterations_per_loop a;
     kw_cluster := cluster;
     kw_init_checkpoint := init_checkpoint a |}.

(** The TPU identifier the cluster resolver receives. *)
Definition resolver_address (a : InitArgs) : string :=
  if truthy_str (tpu a)
  then match tpu a with Some s => s | None => "" end
  else "".

(** The sequence length after both normalisation steps. *)
Definition normalized_sequence_length (a : InitArgs) : gmap string Z :=
  expand_sequence_length (or_default_sequence_length (sequence_length a)).

(** The calls of a construction in which every collaborator returns. *)
Definition init_events (a : InitArgs) (mesh_shape : MeshShape)
    (bs : Z) (rules : LayoutRules) (shape : Shape) (cluster : Cluster)
    (vocab : VocabArg) (input_vocab_size output_vocab_size : Z) : list Event :=
  [Ev_tpu_mesh_shape (tpu_topology a) (model_parallelism a)]
  ++ (if truthy_vocabulary (vocabulary a)
      then []
      else [Ev_SentencePieceVocabulary])
  ++ match batch_size a with
     | BSInt _ => []
     | BSPair method value =>
         [Ev_compute_batch_size (normalized_sequence_length a) mesh_shape
            (layout_rules a) (method, value)]
     end
  ++ [Ev_TPUClusterResolver (resolver_address a) (tpu_zone a) (gcp_project a);
      Ev_vocab_size (inputs_vocabulary vocab);
      Ev_vocab_size (targets_vocabulary vocab);
      Ev_convert_to_layout_rules (layout_rules a);
      Ev_convert_to_shape mesh_shape;
      Ev_get_estimator
        (estimator_kwargs a input_vocab_size output_vocab_size
           (normalized_sequence_length a) bs rules shape cluster)].

(** A call a verb may make on behalf of the object [me]: a delegated
    routine that is handed the object's estimator and batch size, or a
    dataset construction; never one of the constructor's calls. *)
Definition delegates_with (me : MtfModel) (ev : Event) : Prop :=
  match ev with
  | Ev_train_model est _ _ bs _ _ =>
      est = _estimator me /\ bs = _batch_size me
  | Ev_eval_model est _ _ bs _ _ _ _ =>
      est = _estimator me /\ bs = _batch_size me
  | Ev_infer_model est _ _ bs _ _ _ _ _ =>
      est = _estimator me /\ bs = _batch_size me
  | Ev_get_dataset _ _ _ _ => True
  | _ => False
  end.

(** The delegated call a verb has to make on the object [me]: the routine
    and the arguments of the source's call, estimator first. *)
Definition delegated_event (me : MtfModel) (v : Verb) : Event :=
  match v with
  | Train _ steps =>
      Ev_train_model (_estimator me) (_vocabulary me) (_sequence_length me)
        (_batch_size me) steps (_ensemble_inputs me)
  | Eval _ step summary_dir split =>
      Ev_eval_model (_estimator me) (_vocabulary me) (_sequence_length me)
        (_batch_size me) split (_model_dir me) summary_dir step
  | Predict step input_file output_file _ _ =>
      Ev_infer_model (_estimator me) (_vocabulary me) (_sequence_length me)
        (_batch_size me) (_model_type me) (_model_dir me) step input_file
        output_file
  end.

Definition is_get_estimator (ev : Event) : bool :=
  match ev with
  | Ev_get_estimator _ => true
  | _ => false
  end.

(** The gin configuration the inference routine runs under: unlocked, in
    the "decode" scope, with both decoding parameters bound. *)
Definition decode_config (g : GinConfig) (beam_size : Z) (temperature : float)
    : GinConfig :=
  set_binding "Bitransformer.decode.temperature" (GFloat temperature)
    (set_binding "Bitransformer.decode.beam_size" (GInt beam_size)
       (set_scopes ((current_scope g ++ ["decode"]) :: ACTIVE_SCOPES g)
          (set_locked false g))).

End WithExt.

End Facade.

(** ** Concrete collaborators *)

(** Handles as plain data: names for vocabularies, clusters and datasets,
    lists of (dimension, size) for mesh shapes, a number for the estimator,
    rationals for floats. *)
Definition sample_handles : Handles :=
  {| Vocabulary := string;
     MeshShape := list (string * Z);
     Shape := list (string * Z);
     LayoutRules := string;
     Cluster := string;
     Estimator := Z;
     Schedule := string;
     OptimizerClass := string;
     PredictFn := string;
     Dataset := string;
     float := Q |}.

(** Collaborators that always return; the inference routine is a
    parameter, so that it can be made to raise. *)
Definition ext_with (infer : outcome unit) : @Ext sample_handles :=
  @Build_Ext sample_handles
    (* tpu_mesh_shape *)
    (fun _ _ parallelism => Returns [("batch", 1); ("model", parallelism)])
    (* SentencePieceVocabulary *)
    (fun _ => Returns "default_spm")
    (* vocab_size, vocabulary_bool *)
    (fun _ v => Returns (if bool_decide (v = "default_spm") then 32128 else 100))
    (fun _ => true)
    (* compute_batch_size *)
    (fun _ _ _ _ spec => Returns (snd spec / 512))
    (* learning_rate_schedule_noam, AdafactorOptimizer *)
    "noam" "adafactor"
    (* TPUClusterResolver *)
    (fun _ address _ _ => Returns address)
    (* convert_to_layout_rules, convert_to_shape *)
    (fun _ rules => Returns rules)
    (fun _ ms => Returns ms)
    (* get_estimator *)
    (fun _ _ => Returns 7)
    (* infer_model *)
    (fun _ _ _ _ _ _ _ _ _ _ => infer)
    (* registry *)
    {[ "glue_mrpc" ]}
    (* get_dataset *)
    (fun _ name _ _ _ => Returns name)
    (* run_training, run_evaluation *)
    (fun _ _ _ _ _ _ => Returns tt)
    (fun _ _ _ _ _ _ _ _ => Returns tt).

Definition sample_ext : @Ext sample_handles := ext_with (Returns tt).

Definition raising_ext : @Ext sample_handles :=
  ext_with (Raises (Raised "ResourceExhaustedError")).

(** A finalized (locked) configuration with greedy defaults bound. *)
Definition sample_gin : @GinConfig sample_handles :=
  {| config_is_locked := true;
     ACTIVE_SCOPES := [[]];
     CONFIG := {[ "Bitransformer.decode.beam_size" := @GInt sample_handles 1;
                  "Bitransformer.decode.temperature" := @GFloat sample_handles (0 # 1)%Q ]} |}.

Definition sample_world : @World sample_handles :=
  {| gin := sample_gin; log := [] |}.

Definition sample_args : @InitArgs sample_handles :=
  default_args "/tmp/model" (Some "grpc://10.0.0.2:8470").

Definition with_sequence_length (sl : SeqLenArg)
    (a : @InitArgs sample_handles) : @InitArgs sample_handles :=
  {| model_dir := model_dir a; tpu := tpu a; tpu_job_name := tpu_job_name a;
     tpu_zone := tpu_zone a; gcp_project := gcp_project a;
     tpu_topology := tpu_topology a; model_parallelism := model_parallelism a;
     batch_size := batch_size a; sequence_length := sl;
     vocabulary := vocabulary a; model_type := model_type a;
     layout_rules := layout_rules a; autostack := autostack a;
     learning_rate_schedule := learning_rate_schedule a;
     keep_checkpoint_max := keep_checkpoint_max a;
     save_checkpoints_steps := save_checkpoints_steps a;
     optimizer := optimizer a; predict_fn := predict_fn a;
     variable_filter := variable_filter a;
     ensemble_inputs := ensemble_inputs a;
     iterations_per_loop := iterations_per_loop a;
     init_checkpoint := init_checkpoint a |}.

Definition with_batch_size (bs : BatchSizeArg)
    (a : @InitArgs sample_handles) : @InitArgs sample_handles :=
  {| model_dir := model_dir a; tpu := tpu a; tpu_job_name := tpu_job_name a;
     tpu_zone := tpu_zone a; gcp_project := gcp_project a;
     tpu_topology := tpu_topology a; model_parallelism := model_parallelism a;
     batch_size := bs; sequence_length := sequence_length a;
     vocabulary := vocabulary a; model_type := model_type a;
     layout_rules := layout_rules a; autostack := autostack a;
     learning_rate_schedule := learning_rate_schedule a;
     keep_checkpoint_max := keep_checkpoint_max a;
     save_checkpoints_steps := save_checkpoints_steps a;
     optimizer := optimizer a; predict_fn := predict_fn a;
     variable_filter := variable_filter a;
     ensemble_inputs := ensemble_inputs a;
     iterations_per_loop := iterations_per_loop a;
     init_checkpoint := init_checkpoint a |}.

(** The object a construction on these collaborators yields, as a function
    of the batch size and sequence length it resolves. *)
Definition sample_model_with (bs : Z) (sl : gmap string Z)
    : @MtfModel sample_handles :=
  {| _batch_size := bs;
     _sequence_length := sl;
     _vocabulary := @VSingle sample_handles "default_spm";
     _model_dir := "/tmp/model";
     _init_checkpoint := None;
     _model_type := "bitransformer";
     _ensemble_inputs := None;
     _estimator := 7 |}.

(** The object a construction with the defaults yields. *)
Definition sample_model : @MtfModel sample_handles :=
  sample_model_with 2 {[ "inputs" := 512; "targets" := 512 ]}.

Definition sample_state : @ObjState sample_handles :=
  {| self := sample_model; world := sample_world |}.

Definition with_vocabulary (v : option (@VocabArg sample_handles))
    (a : @InitArgs sample_handles) : @InitArgs sample_handles :=
  {| model_dir := model_dir a; tpu := tpu a; tpu_job_name := tpu_job_name a;
     tpu_zone := tpu_zone a; gcp_project := gcp_project a;
     tpu_topology := tpu_topology a; model_parallelism := model_parallelism a;
     batch_size := batch_size a; sequence_length := sequence_length a;
     vocabulary := v; model_type := model_type a;
     layout_rules := layout_rules a; autostack := autostack a;
     learning_rate_schedule := learning_rate_schedule a;
     keep_checkpoint_max := keep_checkpoint_max a;
     save_checkpoints_steps := save_checkpoints_steps a;
     optimizer := optimizer a; predict_fn := predict_fn a;
     variable_filter := variable_filter a;
     ensemble_inputs := ensemble_inputs a;
     iterations_per_loop := iterations_per_loop a;
     init_checkpoint := init_checkpoint a |}.

(** Collaborators among which the cluster resolver raises. *)
Definition unreachable_tpu_ext : @Ext sample_handles :=
  @Build_Ext sample_handles
    (tpu_mesh_shape sample_ext)
    (SentencePieceVocabulary sample_ext)
    (vocab_size sample_ext)
    (vocabulary_bool sample_ext)
    (compute_batch_size sample_ext)
    (learning_rate_schedule_noam sample_ext)
    (AdafactorOptimizer sample_ext)
    (fun _ _ _ _ => Raises (Raised "ValueError"))
    (convert_to_layout_rules sample_ext)
    (convert_to_shape sample_ext)
    (get_estimator sample_ext)
    (infer_model sample_ext)
    (registry sample_ext)
    (get_dataset sample_ext)
    (run_training sample_ext)
    (run_evaluation sample_ext).

(** Collaborators for which the vocabulary object "empty_spm" is falsy. *)
Definition falsy_vocabulary_ext : @Ext sample_handles :=
  @Build_Ext sample_handles
    (tpu_mesh_shape sample_ext)
    (SentencePieceVocabulary sample_ext)
    (vocab_size sample_ext)
    (fun v => negb (bool_decide (v = "empty_spm")))
    (compute_batch_size sample_ext)
    (learning_rate_schedule_noam sample_ext)
    (AdafactorOptimizer sample_ext)
    (TPUClusterResolver sample_ext)
    (convert_to_layout_rules sample_ext)
    (convert_to_shape sample_ext)
    (get_estimator sample_ext)
    (infer_model sample_ext)
    (registry sample_ext)
    (get_dataset sample_ext)
    (run_training sample_ext)
    (run_evaluation sample_ext).




Example sample_construction :
  fst (__init__ sample_ext sample_args sample_world) = Returns sample_model.
Proof. vm_compute. reflexivity. Qed.

(** * Properties *)

(** Case analysis on the outcome of the call a run is waiting on. *)
Ltac case_outcome Hrun :=
  match type of Hrun with
  | (match ?x with Returns _ => _ | Raises _ => _ | Blocks => _ end) = _ =>
      let Hcall := fresh "Hcall" in
      destruct x eqn:Hcall; try discriminate Hrun; cbn in Hrun
  end.

(** Case analysis on every call a run makes, whatever its outcome. *)
Ltac case_calls :=
  repeat match goal with
         | |- context [match ?x with Returns _ => _ | Raises _ => _ | Blocks => _ end] =>
             destruct x; cbn
         end.

(** Case analysis on the vocabulary argument, its truthiness, and the
    default vocabulary's instantiation. *)
Ltac vocabulary_cases E a :=
  destruct (vocabulary a) as [[|]|]; cbn;
  try match goal with
      | |- context [vocabulary_bool E ?v] => destruct (vocabulary_bool E v); cbn
      end;
  try match goal with
      | |- context [SentencePieceVocabulary E ?g] =>
          destruct (SentencePieceVocabulary E g); cbn
      end.

Section Properties.
Context `{Handles}.
Variable E : Ext.

(** ** Construction *)

(** A construction that returns: every collaborator returned, the object
    holds the derived values, and the log grew by exactly the constructor's
    calls. *)
Lemma init_returns_inv (a : InitArgs) (w w' : World) (m : MtfModel) :
  __init__ E a w = (Returns m, w') ->
  exists (mesh_shape : MeshShape) (vocab : VocabArg) (bs : Z)
         (cluster : Cluster) (rules : LayoutRules) (shape : Shape)
         (est : Estimator) (input_vocab_size output_vocab_size : Z),
    tpu_mesh_shape E (gin w) (tpu_topology a) (model_parallelism a)
      = Returns mesh_shape
    /\ (if truthy_vocabulary E (vocabulary a)
        then vocabulary a = Some vocab
        else exists v, SentencePieceVocabulary E (gin w) = Returns v
                       /\ vocab = VSingle v)
    /\ match batch_size a with
       | BSInt n => bs = n
       | BSPair method value =>
           compute_batch_size E (gin w) (normalized_sequence_length a)
             mesh_shape (layout_rules a) (method, value) = Returns bs
       end
    /\ TPUClusterResolver E (gin w) (resolver_address a) (tpu_zone a)
         (gcp_project a) = Returns cluster
    /\ convert_to_layout_rules E (gin w) (layout_rules a) = Returns rules
    /\ convert_to_shape E (gin w) mesh_shape = Returns shape
    /\ get_estimator E (gin w)
         (estimator_kwargs E a input_vocab_size output_vocab_size
            (normalized_sequence_length a) bs rules shape cluster)
       = Returns est
    /\ m = {| _batch_size := bs;
              _sequence_length := normalized_sequence_length a;
              _vocabulary := vocab;
              _model_dir := model_dir a;
              _init_checkpoint := init_checkpoint a;
              _model_type := model_type a;
              _ensemble_inputs := ensemble_inputs a;
              _estimator := est |}
    /\ gin w' = gin w
    /\ log w' = log w ++ init_events E a mesh_shape bs rules shape cluster vocab
                           input_vocab_size output_vocab_size
    /\ vocab_size E (gin w) (inputs_vocabulary vocab)
       = Returns input_vocab_size
    /\ vocab_size E (gin w) (targets_vocabulary vocab)
       = Returns output_vocab_size.
Proof.
  unfold __init__, bind, call, ret, normalized_sequence_length,
    resolver_address, init_events, estimator_kwargs.
  cbn. intros Hrun.
  destruct (tpu_mesh_shape E (gin w) (tpu_topology a) (model_parallelism a))
    as [mesh_shape| |] eqn:Hmesh; try discriminate.
  exists mesh_shape.
  destruct (truthy_vocabulary E (vocabulary a)) eqn:Htruthy.
  - destruct (vocabulary a) as [v|] eqn:Hvocab; [|discriminate Htruthy].
    cbn in Hrun.
    destruct (batch_size a) as [n|method value] eqn:Hbs; cbn in Hrun;
      repeat case_outcome Hrun; injection Hrun as <- <-; cbn;
      repeat eexists; eauto; rewrite <- ?app_assoc; reflexivity.
  - cbn in Hrun.
    destruct (SentencePieceVocabulary E (gin w)) as [v| |] eqn:Hdefault;
      cbn in Hrun; try discriminate Hrun.
    destruct (batch_size a) as [n|method value] eqn:Hbs; cbn in Hrun;
      repeat case_outcome Hrun; injection Hrun as <- <-; cbn;
      repeat eexists; eauto; rewrite <- ?app_assoc; reflexivity.
Qed.



(** C1 (amended).  For an integer [sequence_length] [n], a construction that
    returns stores the mapping [{"inputs": n, "targets": n}] when [n] is not
    zero; for [n = 0], which is falsy, it stores the default mapping
    [{"inputs": 512, "targets": 512}]. *)
Theorem init_sequence_length_int (a : InitArgs) (w w' : World) (m : MtfModel)
    (n : Z) :
  sequence_length a = SLInt n ->
  __init__ E a w = (Returns m, w') ->
  _sequence_length m =
    if decide (n = 0)
    then {[ "inputs" := 512; "targets" := 512 ]}
    else {[ "inputs" := n; "targets" := n ]}.
Proof.
  intros Hsl Hrun.
  apply init_returns_inv in Hrun
    as (ms & vocab & bs & cl & rules & shape & est & isz & osz & _ & _ & _ & _ & _ & _ & _
        & -> & _).
  cbn. unfold normalized_sequence_length, or_default_sequence_length.
  rewrite Hsl. cbn.
  destruct (decide (n = 0)) as [->|Hn]; [reflexivity|].
  apply Z.eqb_neq in Hn. rewrite Hn. reflexivity.
Qed.

(** C2 (amended).  For a dict [sequence_length] [d], a construction that
    returns stores [d] itself when [d] is not empty; for the empty dict,
    which is falsy, it stores the default mapping. *)
Theorem init_sequence_length_dict (a : InitArgs) (w w' : World) (m : MtfModel)
    (d : gmap string Z) :
  sequence_length a = SLDict d ->
  __init__ E a w = (Returns m, w') ->
  _sequence_length m =
    if decide (d = ∅)
    then {[ "inputs" := 512; "targets" := 512 ]}
    else d.
Proof.
  intros Hsl Hrun.
  apply init_returns_inv in Hrun
    as (ms & vocab & bs & cl & rules & shape & est & isz & osz & _ & _ & _ & _ & _ & _ & _
        & -> & _).
  cbn. unfold normalized_sequence_length, or_default_sequence_length.
  rewrite Hsl. cbn.
  destruct (decide (d = ∅)) as [->|Hd].
  - rewrite bool_decide_eq_true_2 by reflexivity. reflexivity.
  - rewrite bool_decide_eq_false_2 by assumption. reflexivity.
Qed.

(** C4.  With an integer [batch_size] [n], the constructor never calls the
    sizing function, whatever its collaborators do, and a construction that
    returns has [n] as the object's batch size. *)
Theorem init_batch_size_int (a : InitArgs) (w : World) (n : Z) :
  batch_size a = BSInt n ->
  (exists evs,
      log (snd (__init__ E a w)) = log w ++ evs
      /\ forallb (fun ev => negb (is_compute_batch_size ev)) evs = true)
  /\ match fst (__init__ E a w) with
     | Returns m => _batch_size m = n
     | _ => True
     end.
Proof.
  intros Hbs. unfold __init__, bind, call, ret. rewrite Hbs. cbn.
  destruct (tpu_mesh_shape E (gin w) (tpu_topology a) (model_parallelism a));
    cbn; [| split; [eexists; split; [reflexivity|reflexivity] | exact I] ..].
  vocabulary_cases E a; case_calls;
    (split; [eexists; split; [rewrite <- ?app_assoc; reflexivity | reflexivity]
            | first [reflexivity | exact I]]).
Qed.

(** C5.  With a (method, value) pair as [batch_size], the batch size of a
    constructed object is what the sizing function returned for the
    normalised sequence length, the mesh shape obtained from the topology and
    the parallelism, the layout rules, and the pair. *)
Theorem init_batch_size_pair (a : InitArgs) (w w' : World) (m : MtfModel)
    (method : string) (value : Z) :
  batch_size a = BSPair method value ->
  __init__ E a w = (Returns m, w') ->
  exists mesh_shape evs,
    tpu_mesh_shape E (gin w) (tpu_topology a) (model_parallelism a)
      = Returns mesh_shape
    /\ _sequence_length m = normalized_sequence_length a
    /\ compute_batch_size E (gin w) (_sequence_length m) mesh_shape
         (layout_rules a) (method, value) = Returns (_batch_size m)
    /\ log w' = log w ++ evs
    /\ In (Ev_compute_batch_size (_sequence_length m) mesh_shape
             (layout_rules a) (method, value)) evs.
Proof.
  intros Hbs Hrun.
  apply init_returns_inv in Hrun
    as (ms & vocab & bs & cl & rules & shape & est & isz & osz & Hms & _ & Hsize & _ & _
        & _ & _ & -> & _ & Hlog & _).
  rewrite Hbs in Hsize. exists ms. eexists. cbn.
  repeat split; [exact Hms | exact Hsize | exact Hlog |].
  unfold init_events. rewrite Hbs.
  rewrite !in_app_iff. right. right. left. left. reflexivity.
Qed.

(** C6.  With [vocabulary] omitted, a construction that returns has
    instantiated the default vocabulary, keeps it as the object's
    vocabulary, and built the estimator with that vocabulary's size as both
    the input and the output vocabulary size. *)
Theorem init_default_vocabulary (a : InitArgs) (w w' : World) (m : MtfModel) :
  vocabulary a = None ->
  __init__ E a w = (Returns m, w') ->
  exists v kw evs,
    SentencePieceVocabulary E (gin w) = Returns v
    /\ _vocabulary m = VSingle v
    /\ log w' = log w ++ evs
    /\ In Ev_SentencePieceVocabulary evs
    /\ In (Ev_get_estimator kw) evs
    /\ get_estimator E (gin w) kw = Returns (_estimator m)
    /\ vocab_size E (gin w) v = Returns (kw_input_vocab_size kw)
    /\ vocab_size E (gin w) v = Returns (kw_output_vocab_size kw).
Proof.
  intros Hvocab Hrun.
  apply init_returns_inv in Hrun
    as (ms & vocab & bs & cl & rules & shape & est & isz & osz & _ & Hdefault
        & _ & _ & _ & _ & Hest & -> & _ & Hlog & Hin & Hout).
  rewrite Hvocab in Hdefault. cbn in Hdefault.
  destruct Hdefault as (v & Hv & ->).
  exists v. eexists. eexists. cbn. cbn in Hin, Hout.
  repeat apply conj;
    [exact Hv | reflexivity | exact Hlog | | | exact Hest | exact Hin
    | exact Hout].
  - unfold init_events. rewrite Hvocab. cbn.
    right. left. reflexivity.
  - unfold init_events.
    rewrite !in_app_iff. right. right. right. cbn. tauto.
Qed.

(** C10.  A construction that returns has called the cluster resolver
    once, with the empty string when [tpu] is [None] or the empty string and
    with [tpu] itself otherwise, and has called the estimator builder once,
    with [use_tpu] the [tpu] argument as it was given. *)
Theorem init_tpu_argument (a : InitArgs) (w w' : World) (m : MtfModel) :
  __init__ E a w = (Returns m, w') ->
  exists address kw evs,
    log w' = log w ++ evs
    /\ In (Ev_TPUClusterResolver address (tpu_zone a) (gcp_project a)) evs
    /\ (forall ad z p, In (Ev_TPUClusterResolver ad z p) evs -> ad = address)
    /\ In (Ev_get_estimator kw) evs
    /\ (forall kw', In (Ev_get_estimator kw') evs -> kw' = kw)
    /\ kw_use_tpu kw = tpu a
    /\ (tpu a = None \/ tpu a = Some "" -> address = "")
    /\ (forall s, tpu a = Some s -> s <> "" ->
        address = s /\ kw_use_tpu kw = Some s).
Proof.
  intros Hrun.
  apply init_returns_inv in Hrun
    as (ms & vocab & bs & cl & rules & shape & est & isz & osz & _ & _ & _ & _ & _
        & _ & _ & _ & _ & Hlog & _).
  exists (resolver_address a). eexists. eexists.
  split; [exact Hlog|].
  repeat apply conj.
  - unfold init_events. rewrite !in_app_iff. right. right. right. cbn. tauto.
  - intros ad z p. unfold init_events.
    destruct (truthy_vocabulary E (vocabulary a)), (batch_size a); cbn;
      intros Hin; repeat (destruct Hin as [Hin|Hin]; try discriminate Hin);
      solve [congruence | contradiction].
  - unfold init_events. rewrite !in_app_iff. right. right. right. cbn. tauto.
  - intros kw'. unfold init_events.
    destruct (truthy_vocabulary E (vocabulary a)), (batch_size a); cbn;
      intros Hin; repeat (destruct Hin as [Hin|Hin]; try discriminate Hin);
      solve [congruence | contradiction].
  - reflexivity.
  - unfold resolver_address. intros [->| ->]; reflexivity.
  - intros s Hs Hne. unfold resolver_address. cbn. rewrite Hs. cbn.
    rewrite bool_decide_eq_false_2 by assumption. split; reflexivity.
Qed.

(** ** The verbs *)

(** What [predict] does, call by call: the outcome is the inference
    routine's, run under [decode_config]; the bindings stay, the scope is
    popped unless the routine blocks, the lock comes back when it
    returns. *)
Lemma predict_run (s : ObjState) (step : CheckpointStep)
    (input_file output_file : string) (beam_size : Z) (temperature : float) :
  let me := self s in
  let g := gin (world s) in
  let r := infer_model E (decode_config g beam_size temperature)
             (_estimator me) (_vocabulary me) (_sequence_length me)
             (_batch_size me) (_model_type me) (_model_dir me) step input_file
             output_file in
  predict E step input_file output_file beam_size temperature s =
  (r,
   {| self := me;
      world :=
        {| gin :=
             {| config_is_locked :=
                  match r with
                  | Returns _ => config_is_locked g
                  | _ => false
                  end;
                ACTIVE_SCOPES :=
                  match r with
                  | Blocks => (current_scope g ++ ["decode"]) :: ACTIVE_SCOPES g
                  | _ => ACTIVE_SCOPES g
                  end;
                CONFIG :=
                  <["Bitransformer.decode.temperature" := GFloat temperature]>
                    (<["Bitransformer.decode.beam_size" := GInt beam_size]>
                       (CONFIG g)) |};
           log :=
             log (world s) ++
             [Ev_infer_model (_estimator me) (_vocabulary me)
                (_sequence_length me) (_batch_size me) (_model_type me)
                (_model_dir me) step input_file output_file] |} |}).
Proof.
  cbn. unfold predict, unlock_config, config_scope, bind, liftW,
    bind_parameter, call, get_self, decode_config. cbn.
  destruct (infer_model E _ _ _ _ _ _ _ _ _ _); reflexivity.
Qed.

(** C7.  For a beam size of at least 1 and any temperature, [predict]
    checks nothing itself: its outcome is the outcome of the inference
    routine, which is called once, under a configuration in which the two
    decoding parameters are bound to exactly the values given. *)
Theorem predict_no_local_validation (s : ObjState) (step : CheckpointStep)
    (input_file output_file : string) (beam_size : Z) (temperature : float) :
  1 <= beam_size ->
  let me := self s in
  let g := decode_config (gin (world s)) beam_size temperature in
  let run := predict E step input_file output_file beam_size temperature s in
  fst run =
    infer_model E g (_estimator me) (_vocabulary me) (_sequence_length me)
      (_batch_size me) (_model_type me) (_model_dir me) step input_file
      output_file
  /\ CONFIG g !! "Bitransformer.decode.beam_size" = Some (GInt beam_size)
  /\ CONFIG g !! "Bitransformer.decode.temperature" = Some (GFloat temperature)
  /\ log (world (snd run)) =
       log (world s) ++
       [Ev_infer_model (_estimator me) (_vocabulary me) (_sequence_length me)
          (_batch_size me) (_model_type me) (_model_dir me) step input_file
          output_file].
Proof.
  intros _. cbn zeta. rewrite predict_run. cbn.
  repeat apply conj; try reflexivity.
  - rewrite lookup_insert_ne by discriminate. apply lookup_insert_eq.
  - apply lookup_insert_eq.
Qed.

(** C3 (amended).  After [predict], whether the inference routine returned
    or raised, the two decoding parameters are bound to the values given to
    [predict]: the earlier bindings are not restored.  What the scoped
    context gives back is the "decode" scope, popped on return and on raise,
    and the configuration lock, set back on return. *)
Theorem predict_bindings_persist (s : ObjState) (step : CheckpointStep)
    (input_file output_file : string) (beam_size : Z) (temperature : float) :
  let g := gin (world s) in
  let run := predict E step input_file output_file beam_size temperature s in
  let g' := gin (world (snd run)) in
  CONFIG g' =
    <["Bitransformer.decode.temperature" := GFloat temperature]>
      (<["Bitransformer.decode.beam_size" := GInt beam_size]> (CONFIG g))
  /\ CONFIG g' !! "Bitransformer.decode.beam_size" = Some (GInt beam_size)
  /\ CONFIG g' !! "Bitransformer.decode.temperature" = Some (GFloat temperature)
  /\ match fst run with
     | Returns _ =>
         ACTIVE_SCOPES g' = ACTIVE_SCOPES g
         /\ config_is_locked g' = config_is_locked g
     | Raises _ => ACTIVE_SCOPES g' = ACTIVE_SCOPES g
     | Blocks => True
     end.
Proof.
  cbn zeta. rewrite predict_run. cbn.
  repeat apply conj.
  - reflexivity.
  - rewrite lookup_insert_ne by discriminate. apply lookup_insert_eq.
  - apply lookup_insert_eq.
  - destruct (infer_model E _ _ _ _ _ _ _ _ _ _); cbn; auto.
Qed.

(** C9.  [train] on a name that is not registered raises the registry's
    error for that very name; the training routine has been entered and no
    dataset has been constructed. *)
Theorem train_unregistered (s : ObjState) (name : string) (steps : Z) :
  name ∉ registry E ->
  let me := self s in
  let evs :=
    [Ev_train_model (_estimator me) (_vocabulary me) (_sequence_length me)
       (_batch_size me) steps (_ensemble_inputs me)] in
  train E name steps s =
    (Raises (NotRegistered name),
     {| self := me;
        world := {| gin := gin (world s); log := log (world s) ++ evs |} |})
  /\ forallb (fun ev => negb (is_get_dataset ev)) evs = true.
Proof.
  intros Hname. cbn zeta. split; [|reflexivity].
  unfold train, train_model, mesh_train_dataset_fn, bind, liftW, call,
    get_self, raise. cbn.
  destruct (decide (name ∈ registry E)) as [Hin|_]; [contradiction|].
  reflexivity.
Qed.

(** A verb leaves the object as it was and only makes calls that are
    handed the object's own estimator and batch size. *)
Lemma run_verb_frame (v : Verb) (s : ObjState) :
  self (snd (run_verb E v s)) = self s
  /\ exists evs,
       log (world (snd (run_verb E v s))) = log (world s) ++ evs
       /\ Forall (delegates_with (self s)) evs.
Proof.
  destruct v as [name steps|name step summary_dir split
                |step input_file output_file beam_size temperature]; cbn.
  - unfold train, train_model, mesh_train_dataset_fn, bind, liftW, call,
      get_self, raise. cbn.
    destruct (decide (name ∈ registry E)); cbn; case_calls;
      (split; [reflexivity|]); eexists;
      (split; [rewrite <- ?app_assoc; reflexivity|]);
      repeat constructor.
  - unfold eval, eval_model, mesh_eval_dataset_fn, bind, liftW, call,
      get_self, raise. cbn.
    destruct (decide (name ∈ registry E)); cbn; case_calls;
      (split; [reflexivity|]); eexists;
      (split; [rewrite <- ?app_assoc; reflexivity|]);
      repeat constructor.
  - rewrite predict_run. cbn. split; [reflexivity|]. eexists.
    split; [reflexivity|]. repeat constructor.
Qed.

Lemma session_frame (vs : list Verb) (s : ObjState) :
  self (session E vs s) = self s
  /\ exists evs,
       log (world (session E vs s)) = log (world s) ++ evs
       /\ Forall (delegates_with (self s)) evs.
Proof.
  revert s. induction vs as [|v vs IH]; intros s; cbn.
  - split; [reflexivity|]. exists []. split; [|constructor].
    symmetry. apply app_nil_r.
  - destruct (run_verb_frame v s) as (Hself & evs & Hlog & Hevs).
    destruct (run_verb E v s) as [r s1]; cbn in Hself, Hlog.
    assert (Hgo : self (session E vs s1) = self s
                  /\ exists evs',
                       log (world (session E vs s1)) = log (world s) ++ evs'
                       /\ Forall (delegates_with (self s)) evs').
    { destruct (IH s1) as (Hself' & evs' & Hlog' & Hevs').
      rewrite Hself in Hself', Hevs'. split; [exact Hself'|].
      exists (evs ++ evs'). split.
      - rewrite Hlog', Hlog. symmetry. apply app_assoc.
      - apply Forall_app. split; assumption. }
    destruct r; [exact Hgo | exact Hgo |].
    split; [exact Hself|]. exists evs. split; assumption.
Qed.

(** Every verb makes its delegated call. *)
Lemma run_verb_delegates (v : Verb) (s : ObjState) :
  exists evs,
    log (world (snd (run_verb E v s))) = log (world s) ++ evs
    /\ In (delegated_event (self s) v) evs.
Proof.
  destruct v as [name steps|name step summary_dir split
                |step input_file output_file beam_size temperature]; cbn.
  - unfold train, train_model, mesh_train_dataset_fn, bind, liftW, call,
      get_self, raise. cbn.
    destruct (decide (name ∈ registry E)); cbn; case_calls;
      eexists; (split; [rewrite <- ?app_assoc; reflexivity|]);
      left; reflexivity.
  - unfold eval, eval_model, mesh_eval_dataset_fn, bind, liftW, call,
      get_self, raise. cbn.
    destruct (decide (name ∈ registry E)); cbn; case_calls;
      eexists; (split; [rewrite <- ?app_assoc; reflexivity|]);
      left; reflexivity.
  - rewrite predict_run. cbn. eexists. split; [reflexivity|].
    left. reflexivity.
Qed.

(** In a session, every verb that is called makes its delegated call. *)
Lemma session_delegates (vs : list Verb) (s : ObjState) :
  exists evs,
    log (world (session E vs s)) = log (world s) ++ evs
    /\ Forall (fun v => In (delegated_event (self s) v) evs) (called E vs s).
Proof.
  revert s. induction vs as [|v vs IH]; intros s; cbn.
  - exists []. split; [symmetry; apply app_nil_r | constructor].
  - destruct (run_verb_frame v s) as (Hself & _).
    destruct (run_verb_delegates v s) as (evs1 & Hlog1 & Hin1).
    destruct (run_verb E v s) as [r s1]; cbn in Hself, Hlog1.
    assert (Hgo :
      exists evs,
        log (world (session E vs s1)) = log (world s) ++ evs
        /\ Forall (fun v0 => In (delegated_event (self s) v0) evs)
             (v :: called E vs s1)).
    { destruct (IH s1) as (evs2 & Hlog2 & Hin2). rewrite Hself in Hin2.
      exists (evs1 ++ evs2). split.
      - rewrite Hlog2, Hlog1. symmetry. apply app_assoc.
      - constructor.
        + apply in_or_app. left. exact Hin1.
        + eapply List.Forall_impl; [|exact Hin2].
          intros v0 Hv0. apply in_or_app. right. exact Hv0. }
    destruct r; [exact Hgo | exact Hgo |].
    exists evs1. split; [exact Hlog1|].
    constructor; [exact Hin1 | constructor].
Qed.

(** C8.  The constructor builds the estimator once and sizes the batch at
    most once; after it, through any sequence of [train], [eval] and
    [predict] calls, the object's attributes stay what the constructor
    stored, no constructor call (sizing function, estimator builder, ...) is
    made again, every delegated routine is handed the estimator and the
    batch size stored at construction, and every verb that is called does
    make its delegated call, on that estimator. *)
Theorem session_keeps_construction (a : InitArgs) (w w1 : World)
    (m : MtfModel) (vs : list Verb) :
  __init__ E a w = (Returns m, w1) ->
  let s' := session E vs {| self := m; world := w1 |} in
  self s' = m
  /\ exists evs0 evs kw,
       log w1 = log w ++ evs0
       /\ List.filter is_get_estimator evs0 = [Ev_get_estimator kw]
       /\ get_estimator E (gin w) kw = Returns (_estimator m)
       /\ kw_batch_size kw = _batch_size m
       /\ (length (List.filter is_compute_batch_size evs0) <= 1)%nat
       /\ log (world s') = log w1 ++ evs
       /\ Forall (delegates_with m) evs
       /\ forallb (fun ev => negb (construction_event ev)) evs = true
       /\ Forall (fun v => In (delegated_event m v) evs)
            (called E vs {| self := m; world := w1 |}).
Proof.
  intros Hrun. cbn zeta.
  destruct (session_frame vs {| self := m; world := w1 |})
    as (Hself & evs & Hlog & Hevs).
  destruct (session_delegates vs {| self := m; world := w1 |})
    as (evs' & Hlog' & Hcalled).
  cbn in Hself, Hlog, Hevs, Hlog', Hcalled.
  assert (Hsame : evs' = evs).
  { apply (app_inv_head (log w1)). rewrite <- Hlog, <- Hlog'. reflexivity. }
  subst evs'.
  split; [exact Hself|].
  apply init_returns_inv in Hrun
    as (ms & vocab & bs & cl & rules & shape & est & isz & osz & _ & _ & _ & _
        & _ & _ & Hest & -> & _ & Hlog0 & _).
  eexists. exists evs. eexists.
  split; [exact Hlog0|].
  repeat apply conj.
  - unfold init_events.
    destruct (truthy_vocabulary E (vocabulary a)), (batch_size a); reflexivity.
  - exact Hest.
  - reflexivity.
  - unfold init_events.
    destruct (truthy_vocabulary E (vocabulary a)), (batch_size a); cbn; lia.
  - exact Hlog.
  - exact Hevs.
  - clear Hlog Hlog' Hcalled.
    induction Hevs as [|ev evs Hev _ IH]; [reflexivity|].
    cbn. rewrite IH.
    destruct ev; cbn in Hev |- *; solve [reflexivity | contradiction].
  - exact Hcalled.
Qed.

End Properties.

(** * The properties on the concrete collaborators *)

(** C1 as stated fails at [sequence_length = 0]: the construction returns
    and the stored mapping is the default, not [{"inputs": 0, "targets": 0}]. *)
Lemma init_sequence_length_zero_counterexample :
  fst (__init__ sample_ext (with_sequence_length (SLInt 0) sample_args)
         sample_world) = Returns sample_model
  /\ _sequence_length sample_model = {[ "inputs" := 512; "targets" := 512 ]}
  /\ _sequence_length sample_model <> {[ "inputs" := 0; "targets" := 0 ]}.
Proof.
  split; [vm_compute; reflexivity|]. split; [reflexivity|].
  intros Heq. apply (f_equal (fun d : gmap string Z => d !! "inputs")) in Heq.
  vm_compute in Heq. discriminate Heq.
Qed.

Lemma init_sequence_length_int_witness :
  sequence_length (with_sequence_length (SLInt 128) sample_args) = SLInt 128
  /\ __init__ sample_ext (with_sequence_length (SLInt 128) sample_args)
       sample_world
     = (Returns (sample_model_with 2 {[ "inputs" := 128; "targets" := 128 ]}),
        snd (__init__ sample_ext (with_sequence_length (SLInt 128) sample_args)
               sample_world))
  /\ _sequence_length
       (sample_model_with 2 {[ "inputs" := 128; "targets" := 128 ]})
     = {[ "inputs" := 128; "targets" := 128 ]}.
Proof.
  assert (Hrun :
    __init__ sample_ext (with_sequence_length (SLInt 128) sample_args)
      sample_world
    = (Returns (sample_model_with 2 {[ "inputs" := 128; "targets" := 128 ]}),
       snd (__init__ sample_ext (with_sequence_length (SLInt 128) sample_args)
              sample_world)))
    by (vm_compute; reflexivity).
  split; [reflexivity|]. split; [exact Hrun|].
  exact (init_sequence_length_int sample_ext
           (with_sequence_length (SLInt 128) sample_args) sample_world _ _
           128 eq_refl Hrun).
Defined.

(** C2 as stated fails at the empty dict: the construction returns and the
    stored mapping is the default, not the empty dict that was passed. *)
Lemma init_sequence_length_empty_counterexample :
  fst (__init__ sample_ext (with_sequence_length (SLDict ∅) sample_args)
         sample_world) = Returns sample_model
  /\ _sequence_length sample_model = {[ "inputs" := 512; "targets" := 512 ]}
  /\ _sequence_length sample_model <> ∅.
Proof.
  split; [vm_compute; reflexivity|]. split; [reflexivity|].
  intros Heq. apply (f_equal (fun d : gmap string Z => d !! "inputs")) in Heq.
  vm_compute in Heq. discriminate Heq.
Qed.

Lemma init_sequence_length_dict_witness :
  sequence_length
    (with_sequence_length (SLDict {[ "inputs" := 512; "targets" := 128 ]})
       sample_args)
  = SLDict {[ "inputs" := 512; "targets" := 128 ]}
  /\ __init__ sample_ext
       (with_sequence_length (SLDict {[ "inputs" := 512; "targets" := 128 ]})
          sample_args) sample_world
     = (Returns (sample_model_with 2 {[ "inputs" := 512; "targets" := 128 ]}),
        snd (__init__ sample_ext
               (with_sequence_length
                  (SLDict {[ "inputs" := 512; "targets" := 128 ]}) sample_args)
               sample_world))
  /\ _sequence_length
       (sample_model_with 2 {[ "inputs" := 512; "targets" := 128 ]})
     = {[ "inputs" := 512; "targets" := 128 ]}.
Proof.
  assert (Hrun :
    __init__ sample_ext
      (with_sequence_length (SLDict {[ "inputs" := 512; "targets" := 128 ]})
         sample_args) sample_world
    = (Returns (sample_model_with 2 {[ "inputs" := 512; "targets" := 128 ]}),
       snd (__init__ sample_ext
              (with_sequence_length
                 (SLDict {[ "inputs" := 512; "targets" := 128 ]}) sample_args)
              sample_world)))
    by (vm_compute; reflexivity).
  split; [reflexivity|]. split; [exact Hrun|].
  exact (init_sequence_length_dict sample_ext
           (with_sequence_length
              (SLDict {[ "inputs" := 512; "targets" := 128 ]}) sample_args)
           sample_world _ _ _ eq_refl Hrun).
Defined.

(** C3 as stated fails: with beam size 1 bound before the call,
    [predict(..., beam_size=4, temperature=0)] leaves beam size 4 bound
    after it, when the inference routine returns and when it raises. *)
Lemma predict_restores_counterexample :
  CONFIG (gin (world sample_state)) !! "Bitransformer.decode.beam_size"
    = Some (@GInt sample_handles 1)
  /\ fst (predict sample_ext (CSInt 1000) "inputs.txt" "outputs.txt" 4
            (0 # 1)%Q sample_state) = Returns tt
  /\ CONFIG (gin (world (snd (predict sample_ext (CSInt 1000) "inputs.txt"
                                "outputs.txt" 4 (0 # 1)%Q sample_state))))
       !! "Bitransformer.decode.beam_size" = Some (@GInt sample_handles 4)
  /\ fst (predict raising_ext (CSInt 1000) "inputs.txt" "outputs.txt" 4
            (0 # 1)%Q sample_state)
       = Raises (Raised "ResourceExhaustedError")
  /\ CONFIG (gin (world (snd (predict raising_ext (CSInt 1000) "inputs.txt"
                                "outputs.txt" 4 (0 # 1)%Q sample_state))))
       !! "Bitransformer.decode.beam_size" = Some (@GInt sample_handles 4).
Proof. repeat split; vm_compute; reflexivity. Qed.

Lemma init_batch_size_int_witness :
  batch_size (with_batch_size (BSInt 16) sample_args) = BSInt 16
  /\ fst (__init__ sample_ext (with_batch_size (BSInt 16) sample_args)
            sample_world)
     = Returns (sample_model_with 16 {[ "inputs" := 512; "targets" := 512 ]})
  /\ forallb (fun ev => negb (is_compute_batch_size ev))
       (log (snd (__init__ sample_ext (with_batch_size (BSInt 16) sample_args)
                    sample_world))) = true.
Proof.
  split; [reflexivity|]. split; [vm_compute; reflexivity|].
  destruct (init_batch_size_int sample_ext
              (with_batch_size (BSInt 16) sample_args) sample_world 16 eq_refl)
    as [(evs & Hlog & Hnone) _].
  rewrite Hlog. exact Hnone.
Defined.

Lemma init_batch_size_pair_witness :
  batch_size sample_args = BSPair "tokens_per_batch" 1024
  /\ __init__ sample_ext sample_args sample_world
     = (Returns sample_model, snd (__init__ sample_ext sample_args sample_world))
  /\ exists mesh_shape,
       tpu_mesh_shape sample_ext sample_gin "2x2" 8 = Returns mesh_shape
       /\ compute_batch_size sample_ext sample_gin
            {[ "inputs" := 512; "targets" := 512 ]} mesh_shape
            (layout_rules sample_args) ("tokens_per_batch", 1024)
          = Returns 2.
Proof.
  assert (Hrun :
    __init__ sample_ext sample_args sample_world
    = (Returns sample_model, snd (__init__ sample_ext sample_args sample_world)))
    by (vm_compute; reflexivity).
  split; [reflexivity|]. split; [exact Hrun|].
  destruct (init_batch_size_pair sample_ext sample_args sample_world _ _
              "tokens_per_batch" 1024 eq_refl Hrun)
    as (mesh_shape & evs & Hmesh & _ & Hsize & _).
  exists mesh_shape. split; [exact Hmesh | exact Hsize].
Defined.

Lemma init_default_vocabulary_witness :
  vocabulary sample_args = None
  /\ __init__ sample_ext sample_args sample_world
     = (Returns sample_model, snd (__init__ sample_ext sample_args sample_world))
  /\ exists kw,
       In (Ev_get_estimator kw)
          (log (snd (__init__ sample_ext sample_args sample_world)))
       /\ kw_input_vocab_size kw = 32128
       /\ kw_output_vocab_size kw = 32128.
Proof.
  assert (Hrun :
    __init__ sample_ext sample_args sample_world
    = (Returns sample_model, snd (__init__ sample_ext sample_args sample_world)))
    by (vm_compute; reflexivity).
  split; [reflexivity|]. split; [exact Hrun|].
  destruct (init_default_vocabulary sample_ext sample_args sample_world _ _
              eq_refl Hrun)
    as (v & kw & evs & Hv & _ & Hlog & _ & Hin & _ & Hi & Ho).
  injection Hv as <-.
  injection Hi as Hi. injection Ho as Ho.
  exists kw. rewrite Hlog. split; [exact Hin|].
  split; [symmetry; exact Hi | symmetry; exact Ho].
Defined.

Lemma init_tpu_argument_witness :
  __init__ sample_ext sample_args sample_world
  = (Returns sample_model, snd (__init__ sample_ext sample_args sample_world))
  /\ exists kw,
       In (Ev_get_estimator kw)
          (log (snd (__init__ sample_ext sample_args sample_world)))
       /\ kw_use_tpu kw = Some "grpc://10.0.0.2:8470"
       /\ In (@Ev_TPUClusterResolver sample_handles "grpc://10.0.0.2:8470"
                None None)
             (log (snd (__init__ sample_ext sample_args sample_world))).
Proof.
  assert (Hrun :
    __init__ sample_ext sample_args sample_world
    = (Returns sample_model, snd (__init__ sample_ext sample_args sample_world)))
    by (vm_compute; reflexivity).
  split; [exact Hrun|].
  destruct (init_tpu_argument sample_ext sample_args sample_world _ _ Hrun)
    as (address & kw & evs & Hlog & Hres & _ & Hin & _ & _ & _ & Htruthy).
  destruct (Htruthy "grpc://10.0.0.2:8470" eq_refl ltac:(discriminate))
    as [-> Huse].
  exists kw. rewrite Hlog. split; [exact Hin|]. split; [exact Huse | exact Hres].
Defined.

Lemma predict_no_local_validation_witness :
  1 <= 4
  /\ fst (predict sample_ext (CSInt 1000) "inputs.txt" "outputs.txt" 4
            (1 # 2)%Q sample_state) = Returns tt
  /\ CONFIG (decode_config sample_gin 4 (1 # 2)%Q)
       !! "Bitransformer.decode.temperature"
     = Some (@GFloat sample_handles (1 # 2)%Q).
Proof.
  assert (Hbeam : 1 <= 4) by lia.
  split; [exact Hbeam|].
  destruct (predict_no_local_validation sample_ext sample_state (CSInt 1000)
              "inputs.txt" "outputs.txt" 4 (1 # 2)%Q Hbeam)
    as (Hout & _ & Htemp & _).
  split; [exact Hout | exact Htemp].
Defined.

Lemma train_unregistered_witness :
  ("unregistered_name" ∉ registry sample_ext)
  /\ fst (train sample_ext "unregistered_name" 100 sample_state)
     = Raises (NotRegistered "unregistered_name")
  /\ forallb (fun ev => negb (is_get_dataset ev))
       (log (world (snd (train sample_ext "unregistered_name" 100
                           sample_state)))) = true.
Proof.
  assert (Hname : "unregistered_name" ∉ registry sample_ext)
    by (apply not_elem_of_singleton; discriminate).
  split; [exact Hname|].
  destruct (train_unregistered sample_ext sample_state "unregistered_name" 100
              Hname) as [Hrun _].
  rewrite Hrun. split; reflexivity.
Defined.

Lemma session_keeps_construction_witness :
  __init__ sample_ext sample_args sample_world
  = (Returns sample_model, snd (__init__ sample_ext sample_args sample_world))
  /\ self (session sample_ext
             [@Train sample_handles "glue_mrpc" 100;
              @Predict sample_handles (CSInt 100) "inputs.txt" "outputs.txt" 4
                (0 # 1)%Q;
              @Train sample_handles "unregistered_name" 100;
              @Eval sample_handles "glue_mrpc" (CSList [50; 100]) None
                "validation"]
             {| self := sample_model;
                world := snd (__init__ sample_ext sample_args sample_world) |})
     = sample_model
  /\ In (@Ev_eval_model sample_handles 7
           (@VSingle sample_handles "default_spm")
           {[ "inputs" := 512; "targets" := 512 ]} 2 "validation" "/tmp/model"
           None (CSList [50; 100]))
        (log (world
                (session sample_ext
                   [@Train sample_handles "glue_mrpc" 100;
                    @Predict sample_handles (CSInt 100) "inputs.txt"
                      "outputs.txt" 4 (0 # 1)%Q;
                    @Train sample_handles "unregistered_name" 100;
                    @Eval sample_handles "glue_mrpc" (CSList [50; 100]) None
                      "validation"]
                   {| self := sample_model;
                      world := snd (__init__ sample_ext sample_args
                                      sample_world) |}))).
Proof.
  assert (Hrun :
    __init__ sample_ext sample_args sample_world
    = (Returns sample_model, snd (__init__ sample_ext sample_args sample_world)))
    by (vm_compute; reflexivity).
  split; [exact Hrun|].
  destruct (session_keeps_construction sample_ext sample_args sample_world
              _ _
              [@Train sample_handles "glue_mrpc" 100;
               @Predict sample_handles (CSInt 100) "inputs.txt" "outputs.txt" 4
                 (0 # 1)%Q;
               @Train sample_handles "unregistered_name" 100;
               @Eval sample_handles "glue_mrpc" (CSList [50; 100]) None
                 "validation"] Hrun)
    as (Hself & evs0 & evs & kw & _ & _ & _ & _ & _ & Hlog & _ & _ & Hcalled).
  split; [exact Hself|].
  rewrite Hlog. apply in_or_app. right.
  exact (List.Forall_inv
           (List.Forall_inv_tail
              (List.Forall_inv_tail (List.Forall_inv_tail Hcalled)))).
Defined.

(** * Further properties of the constructor and the verbs *)

Section Coverage.
Context `{Handles}.
Variable E : Ext.

(** The normalised sequence length is never the empty mapping. *)
Lemma normalized_sequence_length_nonempty (a : InitArgs) :
  normalized_sequence_length a <> ∅.
Proof.
  unfold normalized_sequence_length, or_default_sequence_length.
  destruct (sequence_length a) as [|n|d]; cbn.
  - apply insert_non_empty.
  - destruct (n =? 0); cbn; apply insert_non_empty.
  - destruct (decide (d = ∅)) as [->|Hd].
    + rewrite bool_decide_eq_true_2 by reflexivity. cbn.
      apply insert_non_empty.
    + rewrite bool_decide_eq_false_2 by assumption. cbn. exact Hd.
Qed.

(** X1.  Whatever [sequence_length] is given ([None], any integer, any
    dict), the mapping a constructed object stores is not empty. *)
Theorem init_sequence_length_nonempty (a : InitArgs) (w w' : World)
    (m : MtfModel) :
  __init__ E a w = (Returns m, w') ->
  _sequence_length m <> ∅.
Proof.
  intros Hrun.
  apply init_returns_inv in Hrun
    as (ms & vocab & bs & cl & rules & shape & est & isz & osz & _ & _ & _ & _ & _ & _ & _
        & -> & _).
  cbn. apply normalized_sequence_length_nonempty.
Qed.

(** X2.  When [sequence_length] is [None] or an integer, the stored mapping
    has exactly the keys "inputs" and "targets", both with the same, nonzero
    length. *)
Theorem init_sequence_length_two_keys (a : InitArgs) (w w' : World)
    (m : MtfModel) :
  (forall d, sequence_length a <> SLDict d) ->
  __init__ E a w = (Returns m, w') ->
  exists n,
    n <> 0
    /\ _sequence_length m = {[ "inputs" := n; "targets" := n ]}
    /\ dom (_sequence_length m) = ({[ "inputs"; "targets" ]} : gset string).
Proof.
  intros Hnodict Hrun.
  apply init_returns_inv in Hrun
    as (ms & vocab & bs & cl & rules & shape & est & isz & osz & _ & _ & _ & _ & _ & _ & _
        & -> & _).
  cbn. unfold normalized_sequence_length, or_default_sequence_length.
  destruct (sequence_length a) as [|n|d]; cbn.
  - exists 512. repeat apply conj; [discriminate | reflexivity |].
    rewrite dom_insert_L, dom_singleton_L. reflexivity.
  - destruct (n =? 0) eqn:Hn; cbn.
    + exists 512. repeat apply conj; [discriminate | reflexivity |].
      rewrite dom_insert_L, dom_singleton_L. reflexivity.
    + exists n. apply Z.eqb_neq in Hn.
      repeat apply conj; [exact Hn | reflexivity |].
      rewrite dom_insert_L, dom_singleton_L. reflexivity.
  - exfalso. exact (Hnodict d eq_refl).
Qed.

(** X3.  Normalisation is idempotent: constructing a second object with the
    mapping a first object stores as [sequence_length] stores that same
    mapping again. *)
Theorem init_sequence_length_idempotent (a b : InitArgs) (w w' v v' : World)
    (m m' : MtfModel) :
  __init__ E a w = (Returns m, w') ->
  sequence_length b = SLDict (_sequence_length m) ->
  __init__ E b v = (Returns m', v') ->
  _sequence_length m' = _sequence_length m.
Proof.
  intros Hrun Hsl Hrun'.
  assert (Hne : _sequence_length m <> ∅).
  { apply init_returns_inv in Hrun
      as (ms & vocab & bs & cl & rules & shape & est & isz & osz & _ & _ & _ & _ & _ & _
          & _ & -> & _).
    apply normalized_sequence_length_nonempty. }
  apply init_returns_inv in Hrun'
    as (ms & vocab & bs & cl & rules & shape & est & isz & osz & _ & _ & _ & _ & _ & _ & _
        & -> & _).
  cbn. unfold normalized_sequence_length, or_default_sequence_length.
  rewrite Hsl. cbn.
  rewrite bool_decide_eq_false_2 by assumption. reflexivity.
Qed.

(** X4.  With a truthy vocabulary supplied (an (inputs, targets) pair, or
    a vocabulary object that is not falsy), the constructor never
    instantiates the default vocabulary, whatever its collaborators do, and
    a constructed object stores the vocabulary it was given. *)
Theorem init_supplied_vocabulary (a : InitArgs) (w : World) (v : VocabArg) :
  vocabulary a = Some v ->
  truthy_vocabulary E (Some v) = true ->
  (exists evs,
      log (snd (__init__ E a w)) = log w ++ evs
      /\ ~ In Ev_SentencePieceVocabulary evs)
  /\ match fst (__init__ E a w) with
     | Returns m => _vocabulary m = v
     | _ => True
     end.
Proof.
  intros Hvocab Htruthy. unfold __init__, bind, call, ret.
  rewrite Hvocab, Htruthy. cbn.
  destruct (tpu_mesh_shape E (gin w) (tpu_topology a) (model_parallelism a));
    cbn; try (destruct (batch_size a); cbn); case_calls;
    (split; [eexists; split; [rewrite <- ?app_assoc; reflexivity|]
            | first [reflexivity | exact I]]);
    cbn; intros Hin; repeat (destruct Hin as [Hin|Hin]; try discriminate Hin);
    contradiction.
Qed.

(** X17.  A supplied vocabulary object that is falsy is treated as omitted:
    a constructed object stores the default vocabulary in its place. *)
Theorem init_falsy_vocabulary (a : InitArgs) (w w' : World) (m : MtfModel)
    (v : VocabArg) :
  vocabulary a = Some v ->
  truthy_vocabulary E (Some v) = false ->
  __init__ E a w = (Returns m, w') ->
  exists d evs,
    SentencePieceVocabulary E (gin w) = Returns d
    /\ _vocabulary m = VSingle d
    /\ log w' = log w ++ evs
    /\ In Ev_SentencePieceVocabulary evs.
Proof.
  intros Hvocab Hfalsy Hrun.
  apply init_returns_inv in Hrun
    as (ms & vocab & bs & cl & rules & shape & est & isz & osz & _ & Hdefault
        & _ & _ & _ & _ & _ & -> & _ & Hlog & _).
  rewrite Hvocab, Hfalsy in Hdefault. destruct Hdefault as (d & Hd & ->).
  exists d. eexists. repeat apply conj; [exact Hd | reflexivity | exact Hlog |].
  unfold init_events. rewrite Hvocab, Hfalsy. cbn. right. left. reflexivity.
Qed.

(** X5.  A constructed object's estimator was built with the Noam schedule
    and the Adafactor optimizer when these arguments were omitted, and with
    the caller's schedule and optimizer when they were given. *)
Theorem init_schedule_and_optimizer (a : InitArgs) (w w' : World)
    (m : MtfModel) :
  __init__ E a w = (Returns m, w') ->
  exists kw evs,
    log w' = log w ++ evs
    /\ In (Ev_get_estimator kw) evs
    /\ get_estimator E (gin w) kw = Returns (_estimator m)
    /\ (learning_rate_schedule a = None ->
        kw_learning_rate_schedule kw = learning_rate_schedule_noam E)
    /\ (forall f, learning_rate_schedule a = Some f ->
        kw_learning_rate_schedule kw = f)
    /\ (optimizer a = None -> kw_optimizer kw = AdafactorOptimizer E)
    /\ (forall c, optimizer a = Some c -> kw_optimizer kw = c).
Proof.
  intros Hrun.
  apply init_returns_inv in Hrun
    as (ms & vocab & bs & cl & rules & shape & est & isz & osz & _ & _ & _ & _ & _
        & _ & Hest & -> & _ & Hlog & _).
  eexists. eexists. split; [exact Hlog|].
  repeat apply conj.
  - unfold init_events. rewrite !in_app_iff. right. right. right. cbn. tauto.
  - exact Hest.
  - cbn. intros ->. reflexivity.
  - cbn. intros f ->. reflexivity.
  - cbn. intros ->. reflexivity.
  - cbn. intros c ->. reflexivity.
Qed.

(** X6.  The estimator of a constructed object was built on what the other
    collaborators returned: the cluster the resolver returned, the layout
    rules converted from the rule string, and the shape converted from the
    mesh shape that [tpu_mesh_shape] returned for the topology and the
    parallelism. *)
Theorem init_estimator_wiring (a : InitArgs) (w w' : World) (m : MtfModel) :
  __init__ E a w = (Returns m, w') ->
  exists mesh_shape cluster rules shape kw evs,
    tpu_mesh_shape E (gin w) (tpu_topology a) (model_parallelism a)
      = Returns mesh_shape
    /\ convert_to_shape E (gin w) mesh_shape = Returns shape
    /\ convert_to_layout_rules E (gin w) (layout_rules a) = Returns rules
    /\ TPUClusterResolver E (gin w) (resolver_address a) (tpu_zone a)
         (gcp_project a) = Returns cluster
    /\ log w' = log w ++ evs
    /\ In (Ev_get_estimator kw) evs
    /\ get_estimator E (gin w) kw = Returns (_estimator m)
    /\ kw_cluster kw = cluster
    /\ kw_mesh_shape kw = shape
    /\ kw_layout_rules kw = rules.
Proof.
  intros Hrun.
  apply init_returns_inv in Hrun
    as (ms & vocab & bs & cl & rules & shape & est & isz & osz & Hms & _ & _ & Hcl & Hrules
        & Hshape & Hest & -> & _ & Hlog & _).
  exists ms, cl, rules, shape. eexists. eexists.
  repeat apply conj;
    [exact Hms | exact Hshape | exact Hrules | exact Hcl | exact Hlog
    | | exact Hest | reflexivity ..].
  unfold init_events. rewrite !in_app_iff. right. right. right. cbn. tauto.
Qed.

(** X7.  The estimator of a constructed object was configured with the very
    values the object stores: batch size, sequence length, model directory,
    model type, ensemble width and initial checkpoint. *)
Theorem init_estimator_agrees_with_object (a : InitArgs) (w w' : World)
    (m : MtfModel) :
  __init__ E a w = (Returns m, w') ->
  exists kw evs,
    log w' = log w ++ evs
    /\ In (Ev_get_estimator kw) evs
    /\ get_estimator E (gin w) kw = Returns (_estimator m)
    /\ kw_batch_size kw = _batch_size m
    /\ kw_sequence_length kw = _sequence_length m
    /\ kw_model_dir kw = _model_dir m
    /\ kw_model_type kw = _model_type m
    /\ kw_ensemble_inputs kw = _ensemble_inputs m
    /\ kw_init_checkpoint kw = _init_checkpoint m.
Proof.
  intros Hrun.
  apply init_returns_inv in Hrun
    as (ms & vocab & bs & cl & rules & shape & est & isz & osz & _ & _ & _ & _ & _
        & _ & Hest & -> & _ & Hlog & _).
  eexists. eexists. split; [exact Hlog|].
  repeat apply conj; [| exact Hest | reflexivity ..].
  unfold init_events. rewrite !in_app_iff. right. right. right. cbn. tauto.
Qed.

(** X9.  Whatever its collaborators do, the constructor calls the estimator
    builder only after the mesh shape, the cluster and both conversions have
    been obtained: when one of them raises or blocks, no estimator is
    built. *)
Theorem init_estimator_built_last (a : InitArgs) (w : World) :
  exists evs,
    log (snd (__init__ E a w)) = log w ++ evs
    /\ ((exists kw, In (Ev_get_estimator kw) evs) ->
        exists mesh_shape cluster rules shape,
          tpu_mesh_shape E (gin w) (tpu_topology a) (model_parallelism a)
            = Returns mesh_shape
          /\ TPUClusterResolver E (gin w) (resolver_address a) (tpu_zone a)
               (gcp_project a) = Returns cluster
          /\ convert_to_layout_rules E (gin w) (layout_rules a) = Returns rules
          /\ convert_to_shape E (gin w) mesh_shape = Returns shape).
Proof.
  unfold __init__, bind, call, ret, resolver_address. cbn.
  destruct (tpu_mesh_shape E (gin w) (tpu_topology a) (model_parallelism a))
    as [mesh_shape| |];
    cbn;
    try (vocabulary_cases E a);
    try (destruct (batch_size a); cbn);
    try (destruct (compute_batch_size E (gin w) _ mesh_shape (layout_rules a) _);
         cbn);
    try (destruct (TPUClusterResolver E (gin w) _ (tpu_zone a) (gcp_project a))
           as [cluster| |] eqn:Hcl; cbn);
    try (destruct (convert_to_layout_rules E (gin w) (layout_rules a))
           as [rules| |] eqn:Hrules; cbn);
    try (destruct (convert_to_shape E (gin w) mesh_shape)
           as [shape| |] eqn:Hshape; cbn);
    case_calls;
    eexists; (split; [rewrite <- ?app_assoc; reflexivity|]);
    intros [kw Hin]; cbn in Hin;
    repeat (destruct Hin as [Hin|Hin]; try discriminate Hin);
    try contradiction;
    eauto 10.
Qed.


(** X12.  Two calls of [predict] in a row leave the bindings of the second:
    once the first call has returned or raised, the configuration after the
    second call holds the same bindings as if the first call had not been
    made. *)
Theorem predict_twice (s : ObjState) (step1 step2 : CheckpointStep)
    (in1 out1 in2 out2 : string) (beam1 beam2 : Z) (temp1 temp2 : float) :
  fst (predict E step1 in1 out1 beam1 temp1 s) <> Blocks ->
  CONFIG (gin (world (snd (predict E step2 in2 out2 beam2 temp2
                             (snd (predict E step1 in1 out1 beam1 temp1 s))))))
  = CONFIG (gin (world (snd (predict E step2 in2 out2 beam2 temp2 s)))).
Proof.
  intros _. rewrite !predict_run. cbn.
  apply map_eq. intros k.
  destruct (decide (k = "Bitransformer.decode.temperature")) as [->|Htemp].
  - rewrite !lookup_insert_eq. reflexivity.
  - rewrite !(lookup_insert_ne _ "Bitransformer.decode.temperature" k)
      by congruence.
    destruct (decide (k = "Bitransformer.decode.beam_size")) as [->|Hbeam].
    + rewrite !lookup_insert_eq. reflexivity.
    + rewrite !lookup_insert_ne by congruence. reflexivity.
Qed.


(** X15.  A constructed object's [predict] hands the inference routine the
    estimator built at construction, the stored vocabulary, the normalised
    sequence length, the resolved batch size, and the constructor's
    [model_type] and [model_dir], together with the call's own checkpoint
    selector and file names. *)
Theorem predict_after_init (a : InitArgs) (w w1 : World) (m : MtfModel)
    (step : CheckpointStep) (input_file output_file : string) (beam_size : Z)
    (temperature : float) :
  __init__ E a w = (Returns m, w1) ->
  exists kw est,
    In (Ev_get_estimator kw) (log w1)
    /\ get_estimator E (gin w) kw = Returns est
    /\ log (world (snd (predict E step input_file output_file beam_size
                          temperature {| self := m; world := w1 |})))
       = log w1 ++
         [Ev_infer_model est (_vocabulary m) (normalized_sequence_length a)
            (kw_batch_size kw) (model_type a) (model_dir a) step input_file
            output_file].
Proof.
  intros Hrun. rewrite predict_run. cbn.
  apply init_returns_inv in Hrun
    as (ms & vocab & bs & cl & rules & shape & est & isz & osz & _ & _ & _ & _ & _
        & _ & Hest & -> & _ & Hlog & _).
  eexists. exists est. repeat apply conj; [| exact Hest | reflexivity].
  rewrite Hlog. unfold init_events. rewrite !in_app_iff.
  right. right. right. right. cbn. tauto.
Qed.

(** X16.  A constructed object's [train] and [eval] enter the training and
    the evaluation routine with the estimator built at construction, the
    stored vocabulary, the normalised sequence length and the resolved batch
    size; [train] adds the step count and the constructor's
    [ensemble_inputs], [eval] the split, the constructor's [model_dir], the
    summary directory and the checkpoint selector. *)
Theorem train_eval_after_init (a : InitArgs) (w w1 : World) (m : MtfModel)
    (name : string) (steps : Z) (step : CheckpointStep)
    (summary_dir : option string) (split : string) :
  __init__ E a w = (Returns m, w1) ->
  exists kw est,
    In (Ev_get_estimator kw) (log w1)
    /\ get_estimator E (gin w) kw = Returns est
    /\ (exists evs,
          log (world (snd (train E name steps {| self := m; world := w1 |})))
          = log w1 ++
            Ev_train_model est (_vocabulary m) (normalized_sequence_length a)
              (kw_batch_size kw) steps (ensemble_inputs a) :: evs)
    /\ (exists evs,
          log (world (snd (eval E name step summary_dir split
                             {| self := m; world := w1 |})))
          = log w1 ++
            Ev_eval_model est (_vocabulary m) (normalized_sequence_length a)
              (kw_batch_size kw) split (model_dir a) summary_dir step :: evs).
Proof.
  intros Hrun.
  apply init_returns_inv in Hrun
    as (ms & vocab & bs & cl & rules & shape & est & isz & osz & _ & _ & _ & _ & _
        & _ & Hest & -> & _ & Hlog & _).
  eexists. exists est. repeat apply conj; [| exact Hest | |].
  - rewrite Hlog. unfold init_events. rewrite !in_app_iff.
    right. right. right. right. cbn. tauto.
  - unfold train, train_model, mesh_train_dataset_fn, bind, liftW, call,
      get_self, raise. cbn.
    destruct (decide (name ∈ registry E)); cbn; case_calls;
      eexists; rewrite <- ?app_assoc; reflexivity.
  - unfold eval, eval_model, mesh_eval_dataset_fn, bind, liftW, call,
      get_self, raise. cbn.
    destruct (decide (name ∈ registry E)); cbn; case_calls;
      eexists; rewrite <- ?app_assoc; reflexivity.
Qed.

End Coverage.

(** * The further properties on the concrete collaborators *)

Lemma init_sequence_length_nonempty_witness :
  __init__ sample_ext sample_args sample_world
  = (Returns sample_model, snd (__init__ sample_ext sample_args sample_world))
  /\ _sequence_length sample_model <> ∅.
Proof.
  assert (Hrun :
    __init__ sample_ext sample_args sample_world
    = (Returns sample_model, snd (__init__ sample_ext sample_args sample_world)))
    by (vm_compute; reflexivity).
  split; [exact Hrun|].
  exact (init_sequence_length_nonempty sample_ext sample_args sample_world _ _
           Hrun).
Defined.

Lemma init_sequence_length_two_keys_witness :
  (forall d, sequence_length sample_args <> SLDict d)
  /\ __init__ sample_ext sample_args sample_world
     = (Returns sample_model, snd (__init__ sample_ext sample_args sample_world))
  /\ exists n,
       n <> 0
       /\ _sequence_length sample_model = {[ "inputs" := n; "targets" := n ]}
       /\ dom (_sequence_length sample_model)
          = ({[ "inputs"; "targets" ]} : gset string).
Proof.
  assert (Hnodict : forall d, sequence_length sample_args <> SLDict d)
    by (intros d; discriminate).
  assert (Hrun :
    __init__ sample_ext sample_args sample_world
    = (Returns sample_model, snd (__init__ sample_ext sample_args sample_world)))
    by (vm_compute; reflexivity).
  split; [exact Hnodict|]. split; [exact Hrun|].
  exact (init_sequence_length_two_keys sample_ext sample_args sample_world _ _
           Hnodict Hrun).
Defined.

Lemma init_sequence_length_idempotent_witness :
  __init__ sample_ext (with_sequence_length (SLInt 128) sample_args)
    sample_world
  = (Returns (sample_model_with 2 {[ "inputs" := 128; "targets" := 128 ]}),
     snd (__init__ sample_ext (with_sequence_length (SLInt 128) sample_args)
            sample_world))
  /\ sequence_length
       (with_sequence_length (SLDict {[ "inputs" := 128; "targets" := 128 ]})
          sample_args)
     = SLDict (_sequence_length
                 (sample_model_with 2 {[ "inputs" := 128; "targets" := 128 ]}))
  /\ __init__ sample_ext
       (with_sequence_length (SLDict {[ "inputs" := 128; "targets" := 128 ]})
          sample_args) sample_world
     = (Returns (sample_model_with 2 {[ "inputs" := 128; "targets" := 128 ]}),
        snd (__init__ sample_ext
               (with_sequence_length
                  (SLDict {[ "inputs" := 128; "targets" := 128 ]}) sample_args)
               sample_world))
  /\ _sequence_length
       (sample_model_with 2 {[ "inputs" := 128; "targets" := 128 ]})
     = {[ "inputs" := 128; "targets" := 128 ]}.
Proof.
  assert (Hrun :
    __init__ sample_ext (with_sequence_length (SLInt 128) sample_args)
      sample_world
    = (Returns (sample_model_with 2 {[ "inputs" := 128; "targets" := 128 ]}),
       snd (__init__ sample_ext (with_sequence_length (SLInt 128) sample_args)
              sample_world)))
    by (vm_compute; reflexivity).
  assert (Hrun' :
    __init__ sample_ext
      (with_sequence_length (SLDict {[ "inputs" := 128; "targets" := 128 ]})
         sample_args) sample_world
    = (Returns (sample_model_with 2 {[ "inputs" := 128; "targets" := 128 ]}),
       snd (__init__ sample_ext
              (with_sequence_length
                 (SLDict {[ "inputs" := 128; "targets" := 128 ]}) sample_args)
              sample_world)))
    by (vm_compute; reflexivity).
  split; [exact Hrun|]. split; [reflexivity|]. split; [exact Hrun'|].
  exact (init_sequence_length_idempotent sample_ext
           (with_sequence_length (SLInt 128) sample_args)
           (with_sequence_length
              (SLDict {[ "inputs" := 128; "targets" := 128 ]}) sample_args)
           sample_world _ sample_world _ _ _ Hrun eq_refl Hrun').
Defined.

Lemma init_supplied_vocabulary_witness :
  vocabulary
    (with_vocabulary (Some (@VSingle sample_handles "custom_spm")) sample_args)
  = Some (@VSingle sample_handles "custom_spm")
  /\ truthy_vocabulary sample_ext (Some (@VSingle sample_handles "custom_spm"))
     = true
  /\ fst (__init__ sample_ext
            (with_vocabulary (Some (@VSingle sample_handles "custom_spm"))
               sample_args) sample_world)
     = Returns {| _batch_size := 2;
                  _sequence_length := {[ "inputs" := 512; "targets" := 512 ]};
                  _vocabulary := @VSingle sample_handles "custom_spm";
                  _model_dir := "/tmp/model";
                  _init_checkpoint := None;
                  _model_type := "bitransformer";
                  _ensemble_inputs := None;
                  _estimator := 7 |}
  /\ ~ In (@Ev_SentencePieceVocabulary sample_handles)
          (log (snd (__init__ sample_ext
                       (with_vocabulary
                          (Some (@VSingle sample_handles "custom_spm"))
                          sample_args) sample_world))).
Proof.
  split; [reflexivity|]. split; [reflexivity|].
  split; [vm_compute; reflexivity|].
  destruct (init_supplied_vocabulary sample_ext
              (with_vocabulary (Some (@VSingle sample_handles "custom_spm"))
                 sample_args) sample_world _ eq_refl eq_refl)
    as [(evs & Hlog & Hnone) _].
  rewrite Hlog. exact Hnone.
Defined.

Lemma init_falsy_vocabulary_witness :
  vocabulary
    (with_vocabulary (Some (@VSingle sample_handles "empty_spm")) sample_args)
  = Some (@VSingle sample_handles "empty_spm")
  /\ truthy_vocabulary falsy_vocabulary_ext
       (Some (@VSingle sample_handles "empty_spm")) = false
  /\ __init__ falsy_vocabulary_ext
       (with_vocabulary (Some (@VSingle sample_handles "empty_spm"))
          sample_args) sample_world
     = (Returns sample_model,
        snd (__init__ falsy_vocabulary_ext
               (with_vocabulary (Some (@VSingle sample_handles "empty_spm"))
                  sample_args) sample_world))
  /\ _vocabulary sample_model = @VSingle sample_handles "default_spm".
Proof.
  assert (Hrun :
    __init__ falsy_vocabulary_ext
      (with_vocabulary (Some (@VSingle sample_handles "empty_spm"))
         sample_args) sample_world
    = (Returns sample_model,
       snd (__init__ falsy_vocabulary_ext
              (with_vocabulary (Some (@VSingle sample_handles "empty_spm"))
                 sample_args) sample_world)))
    by (vm_compute; reflexivity).
  split; [reflexivity|]. split; [reflexivity|]. split; [exact Hrun|].
  destruct (init_falsy_vocabulary falsy_vocabulary_ext
              (with_vocabulary (Some (@VSingle sample_handles "empty_spm"))
                 sample_args) sample_world _ _ _ eq_refl eq_refl Hrun)
    as (d & evs & Hd & Hvocab & _).
  injection Hd as <-. exact Hvocab.
Defined.

Lemma init_schedule_and_optimizer_witness :
  __init__ sample_ext sample_args sample_world
  = (Returns sample_model, snd (__init__ sample_ext sample_args sample_world))
  /\ exists kw,
       In (Ev_get_estimator kw)
          (log (snd (__init__ sample_ext sample_args sample_world)))
       /\ kw_learning_rate_schedule kw = "noam"
       /\ kw_optimizer kw = "adafactor".
Proof.
  assert (Hrun :
    __init__ sample_ext sample_args sample_world
    = (Returns sample_model, snd (__init__ sample_ext sample_args sample_world)))
    by (vm_compute; reflexivity).
  split; [exact Hrun|].
  destruct (init_schedule_and_optimizer sample_ext sample_args sample_world
              _ _ Hrun)
    as (kw & evs & Hlog & Hin & _ & Hnoam & _ & Hada & _).
  exists kw. rewrite Hlog.
  split; [exact Hin|]. split; [exact (Hnoam eq_refl) | exact (Hada eq_refl)].
Defined.

Lemma init_estimator_wiring_witness :
  __init__ sample_ext sample_args sample_world
  = (Returns sample_model, snd (__init__ sample_ext sample_args sample_world))
  /\ exists kw,
       In (Ev_get_estimator kw)
          (log (snd (__init__ sample_ext sample_args sample_world)))
       /\ kw_cluster kw = "grpc://10.0.0.2:8470"
       /\ kw_mesh_shape kw = [("batch", 1); ("model", 8)].
Proof.
  assert (Hrun :
    __init__ sample_ext sample_args sample_world
    = (Returns sample_model, snd (__init__ sample_ext sample_args sample_world)))
    by (vm_compute; reflexivity).
  split; [exact Hrun|].
  destruct (init_estimator_wiring sample_ext sample_args sample_world _ _ Hrun)
    as (ms & cl & rules & shape & kw & evs & Hms & Hshape & _ & Hcl
        & Hlog & Hin & _ & Hkcl & Hkms & _).
  injection Hms as <-. injection Hshape as <-. injection Hcl as <-.
  exists kw. rewrite Hlog.
  split; [exact Hin|]. split; [|exact Hkms].
  rewrite Hkcl. reflexivity.
Defined.

Lemma init_estimator_agrees_with_object_witness :
  __init__ sample_ext sample_args sample_world
  = (Returns sample_model, snd (__init__ sample_ext sample_args sample_world))
  /\ exists kw,
       In (Ev_get_estimator kw)
          (log (snd (__init__ sample_ext sample_args sample_world)))
       /\ kw_batch_size kw = 2
       /\ kw_sequence_length kw = {[ "inputs" := 512; "targets" := 512 ]}
       /\ kw_model_dir kw = "/tmp/model".
Proof.
  assert (Hrun :
    __init__ sample_ext sample_args sample_world
    = (Returns sample_model, snd (__init__ sample_ext sample_args sample_world)))
    by (vm_compute; reflexivity).
  split; [exact Hrun|].
  destruct (init_estimator_agrees_with_object sample_ext sample_args
              sample_world _ _ Hrun)
    as (kw & evs & Hlog & Hin & _ & Hbs & Hsl & Hdir & _).
  exists kw. rewrite Hlog.
  split; [exact Hin|]. split; [exact Hbs|]. split; [exact Hsl | exact Hdir].
Defined.



Lemma predict_twice_witness :
  fst (predict sample_ext (CSInt 1000) "inputs.txt" "outputs.txt" 4 (0 # 1)%Q
         sample_state) <> Blocks
  /\ CONFIG (gin (world (snd (predict sample_ext (CSInt 2000) "inputs.txt"
                                "outputs.txt" 1 (1 # 1)%Q
                                (snd (predict sample_ext (CSInt 1000)
                                        "inputs.txt" "outputs.txt" 4 (0 # 1)%Q
                                        sample_state))))))
     = CONFIG (gin (world (snd (predict sample_ext (CSInt 2000) "inputs.txt"
                                  "outputs.txt" 1 (1 # 1)%Q sample_state)))).
Proof.
  assert (Hfirst :
    fst (predict sample_ext (CSInt 1000) "inputs.txt" "outputs.txt" 4
           (0 # 1)%Q sample_state) <> Blocks)
    by (vm_compute; discriminate).
  split; [exact Hfirst|].
  exact (predict_twice sample_ext sample_state (CSInt 1000) (CSInt 2000)
           "inputs.txt" "outputs.txt" "inputs.txt" "outputs.txt" 4 1
           (0 # 1)%Q (1 # 1)%Q Hfirst).
Defined.


Lemma predict_after_init_witness :
  __init__ sample_ext sample_args sample_world
  = (Returns sample_model, snd (__init__ sample_ext sample_args sample_world))
  /\ exists kw est,
       get_estimator sample_ext sample_gin kw = Returns est
       /\ In (Ev_infer_model est (@VSingle sample_handles "default_spm")
                {[ "inputs" := 512; "targets" := 512 ]} (kw_batch_size kw)
                "bitransformer" "/tmp/model" (CSInt 1000) "inputs.txt"
                "outputs.txt")
             (log (world (snd (predict sample_ext (CSInt 1000) "inputs.txt"
                                 "outputs.txt" 4 (0 # 1)%Q
                                 {| self := sample_model;
                                    world := snd (__init__ sample_ext
                                                    sample_args
                                                    sample_world) |})))).
Proof.
  assert (Hrun :
    __init__ sample_ext sample_args sample_world
    = (Returns sample_model, snd (__init__ sample_ext sample_args sample_world)))
    by (vm_compute; reflexivity).
  split; [exact Hrun|].
  destruct (predict_after_init sample_ext sample_args sample_world _ _
              (CSInt 1000) "inputs.txt" "outputs.txt" 4 (0 # 1)%Q Hrun)
    as (kw & est & _ & Hest & Hlog).
  exists kw, est. split; [exact Hest|].
  rewrite Hlog. apply in_app_iff. right. left. reflexivity.
Defined.

Lemma train_eval_after_init_witness :
  __init__ sample_ext sample_args sample_world
  = (Returns sample_model, snd (__init__ sample_ext sample_args sample_world))
  /\ exists kw est,
       get_estimator sample_ext sample_gin kw = Returns est
       /\ In (Ev_train_model est (@VSingle sample_handles "default_spm")
                {[ "inputs" := 512; "targets" := 512 ]} (kw_batch_size kw)
                100 None)
             (log (world (snd (train sample_ext "glue_mrpc" 100
                                 {| self := sample_model;
                                    world := snd (__init__ sample_ext
                                                    sample_args
                                                    sample_world) |})))).
Proof.
  assert (Hrun :
    __init__ sample_ext sample_args sample_world
    = (Returns sample_model, snd (__init__ sample_ext sample_args sample_world)))
    by (vm_compute; reflexivity).
  split; [exact Hrun|].
  destruct (train_eval_after_init sample_ext sample_args sample_world _ _
              "glue_mrpc" 100 (CSInt 100) None "validation" Hrun)
    as (kw & est & _ & Hest & (evs & Hlog) & _).
  exists kw, est. split; [exact Hest|].
  rewrite Hlog. apply in_app_iff. right. left. reflexivity.
Defined.
